(** * Allscreenshots TypeScript SDK: the request pipeline

    A shallow embedding of the SDK's error taxonomy ([errors/index.ts]),
    of the client's constructor, builder and request executor
    ([client.ts]) and of the retry controller ([utils/retry.ts]), with
    the properties the design document states about them. *)

From Stdlib Require Import Ascii String ZArith QArith Qminmax Qpower Lia.
From stdpp Require Import base option list strings pretty gmap.

Local Open Scope string_scope.

(** ** JavaScript values the code relies on *)

Module Js.

(** [!!s] for a value typed [string | undefined]: only a present,
    non-empty string is truthy. *)
Definition truthy (o : option string) : bool :=
  match o with
  | Some s => negb (String.eqb s "")
  | None => false
  end.

(** [a || b] with both sides typed [string | undefined]. *)
Definition or (a b : option string) : option string :=
  if truthy a then a else b.

(** [a || fallback] where [fallback] is a string. *)
Definition or_else (a : option string) (fallback : string) : string :=
  match a with
  | Some s => if String.eqb s "" then fallback else s
  | None => fallback
  end.

(** [String(n)] / template interpolation of an integral number of
    magnitude below 10^21; from there on JavaScript writes an
    exponent. *)
Definition show (n : Z) : string := pretty n.

End Js.

(** ** errors/index.ts *)

(** The classes of the hierarchy. Every subclass extends
    [AllscreenshotsError] directly, so the class of an instance decides
    every [instanceof] test the code makes. *)
Inductive ErrorClass :=
| AllscreenshotsErrorC
| AuthenticationErrorC
| ValidationErrorC
| NotFoundErrorC
| RateLimitErrorC
| QuotaExceededErrorC
| ServerErrorC
| NetworkErrorC
| TimeoutErrorC.

#[global] Instance ErrorClass_eq_dec : EqDecision ErrorClass.
Proof. solve_decision. Defined.

(** One record for every instance: the base class fields plus the two
    subclass-specific ones ([undefined] where the class lacks them). *)
Record AllscreenshotsError := mkError {
  class_of : ErrorClass;
  message : string;
  statusCode : option Z;
  errorCode : option string;
  validationErrors : option (gmap string string);
  retryAfter : option Z
}.

(** [this.name], set by each constructor. *)
Definition name (e : AllscreenshotsError) : string :=
  match class_of e with
  | AllscreenshotsErrorC => "AllscreenshotsError"
  | AuthenticationErrorC => "AuthenticationError"
  | ValidationErrorC => "ValidationError"
  | NotFoundErrorC => "NotFoundError"
  | RateLimitErrorC => "RateLimitError"
  | QuotaExceededErrorC => "QuotaExceededError"
  | ServerErrorC => "ServerError"
  | NetworkErrorC => "NetworkError"
  | TimeoutErrorC => "TimeoutError"
  end.

(** The constructors. An optional parameter is an [option]; a parameter
    with a default takes the default when it is [undefined]. *)

Definition new_AllscreenshotsError (msg : string) (status : option Z) (code : option string)
    : AllscreenshotsError :=
  mkError AllscreenshotsErrorC msg status code None None.

Definition AuthenticationError (msg : option string) : AllscreenshotsError :=
  mkError AuthenticationErrorC
    (default "Authentication failed. Check your API key." msg)
    (Some 401%Z) (Some "AUTHENTICATION_ERROR") None None.

Definition ValidationError (msg : string) (errs : option (gmap string string))
    : AllscreenshotsError :=
  mkError ValidationErrorC msg (Some 400%Z) (Some "VALIDATION_ERROR") errs None.

Definition NotFoundError (msg : option string) : AllscreenshotsError :=
  mkError NotFoundErrorC (default "Resource not found" msg)
    (Some 404%Z) (Some "NOT_FOUND") None None.

Definition RateLimitError (msg : option string) (after : option Z)
    : AllscreenshotsError :=
  mkError RateLimitErrorC (default "Rate limit exceeded" msg)
    (Some 429%Z) (Some "RATE_LIMIT_EXCEEDED") None after.

Definition QuotaExceededError (msg : option string) : AllscreenshotsError :=
  mkError QuotaExceededErrorC (default "Quota exceeded" msg)
    (Some 402%Z) (Some "QUOTA_EXCEEDED") None None.

Definition ServerError (msg : option string) (status : option Z)
    : AllscreenshotsError :=
  mkError ServerErrorC (default "Internal server error" msg)
    (Some (default 500%Z status)) (Some "SERVER_ERROR") None None.

Definition NetworkError (msg : option string) : AllscreenshotsError :=
  mkError NetworkErrorC (default "Network error occurred" msg)
    None (Some "NETWORK_ERROR") None None.

Definition TimeoutError (msg : option string) : AllscreenshotsError :=
  mkError TimeoutErrorC (default "Request timed out" msg)
    None (Some "TIMEOUT_ERROR") None None.

(** The error kinds of the design document, one per class. *)
Inductive ErrorKind :=
| Validation | Authentication | NotFound | RateLimited | QuotaExceeded
| Server | Network | Timeout | Unknown.

#[global] Instance ErrorKind_eq_dec : EqDecision ErrorKind.
Proof. solve_decision. Defined.

Definition kind (e : AllscreenshotsError) : ErrorKind :=
  match class_of e with
  | AllscreenshotsErrorC => Unknown
  | AuthenticationErrorC => Authentication
  | ValidationErrorC => Validation
  | NotFoundErrorC => NotFound
  | RateLimitErrorC => RateLimited
  | QuotaExceededErrorC => QuotaExceeded
  | ServerErrorC => Server
  | NetworkErrorC => Network
  | TimeoutErrorC => Timeout
  end.

(** [interface ApiErrorResponse] *)
Record ApiErrorResponse := mkApiErrorResponse {
  resp_error : option string;
  resp_message : option string;
  resp_errorCode : option string;
  resp_statusCode : option Z;
  resp_validationErrors : option (gmap string string)
}.

(** The [body] parameter, typed [ApiErrorResponse | string | null]. *)
Inductive ErrorBody :=
| BodyObject (r : ApiErrorResponse)
| BodyString (s : string)
| BodyNull.

(** [`HTTP ${statusCode} error`] *)
Definition httpFallback (status : Z) : string :=
  "HTTP " +:+ Js.show status +:+ " error".

(** The [message] constant of [parseApiError]. *)
Definition parsedMessage (status : Z) (body : ErrorBody) : string :=
  match body with
  | BodyString s => s
  | BodyObject r =>
      Js.or_else (Js.or (resp_message r) (resp_error r)) (httpFallback status)
  | BodyNull => httpFallback status
  end.

(** The [errorCode] constant of [parseApiError]; [typeof null] is
    ['object'] and [null?.errorCode] is [undefined]. *)
Definition parsedErrorCode (body : ErrorBody) : option string :=
  match body with
  | BodyObject r => resp_errorCode r
  | BodyString _ | BodyNull => None
  end.

Definition parsedValidationErrors (body : ErrorBody) : option (gmap string string) :=
  match body with
  | BodyObject r => resp_validationErrors r
  | BodyString _ | BodyNull => None
  end.

Definition parseApiError (status : Z) (body : ErrorBody) (after : option Z)
    : AllscreenshotsError :=
  let msg := parsedMessage status body in
  let code := parsedErrorCode body in
  if (status =? 400)%Z then ValidationError msg (parsedValidationErrors body)
  else if ((status =? 401) || (status =? 403))%Z then AuthenticationError (Some msg)
  else if (status =? 402)%Z then QuotaExceededError (Some msg)
  else if (status =? 404)%Z then NotFoundError (Some msg)
  else if (status =? 429)%Z then RateLimitError (Some msg) after
  else if ((status =? 500) || (status =? 502) || (status =? 503) || (status =? 504))%Z
       then ServerError (Some msg) (Some status)
  else new_AllscreenshotsError msg (Some status) code.

(** ** client.ts *)

(** How a statement completes: normally with a value, or by throwing. *)
Inductive Completion (A : Type) :=
| Return (a : A)
| Throw (e : AllscreenshotsError).
Arguments Return {A} a.
Arguments Throw {A} e.

(** Modelled from the spec: [interface RetryConfig], declared in
    [utils/retry.ts]: the Retry Configuration of the data model (section
    3) under the field names the README configures. *)
Record RetryConfig := mkRetryConfig {
  maxRetries : nat;
  initialDelayMs : Q;
  maxDelayMs : Q;
  backoffMultiplier : Q;
  jitterFactor : Q
}.

(** [Partial<RetryConfig>] *)
Record PartialRetryConfig := mkPartialRetryConfig {
  p_maxRetries : option nat;
  p_initialDelayMs : option Q;
  p_maxDelayMs : option Q;
  p_backoffMultiplier : option Q;
  p_jitterFactor : option Q
}.

(** [{ ...defaults, ...partial }], the keys of [partial] being either
    absent or set to a value. *)
Definition spreadRetry (defaults : RetryConfig) (partial : option PartialRetryConfig)
    : RetryConfig :=
  match partial with
  | None => defaults
  | Some p =>
      mkRetryConfig
        (default (maxRetries defaults) (p_maxRetries p))
        (default (initialDelayMs defaults) (p_initialDelayMs p))
        (default (maxDelayMs defaults) (p_maxDelayMs p))
        (default (backoffMultiplier defaults) (p_backoffMultiplier p))
        (default (jitterFactor defaults) (p_jitterFactor p))
  end.

(** [interface AllscreenshotsConfig] *)
Record AllscreenshotsConfig := mkConfig {
  apiKey : option string;
  baseUrl : option string;
  timeout : option Z;
  retry : option PartialRetryConfig;
  autoRetry : option bool
}.

Definition emptyConfig : AllscreenshotsConfig := mkConfig None None None None None.

Module DEFAULT_CONFIG.
Definition baseUrl : string := "https://api.allscreenshots.com".
Definition timeout : Z := 60000.
Definition autoRetry : bool := true.
End DEFAULT_CONFIG.

(** [s.replace(/\/+$/, '')]: the maximal run of slashes that ends the
    string is removed. *)
Fixpoint stripTrailingSlashes (s : string) : string :=
  match s with
  | EmptyString => EmptyString
  | String c rest =>
      match stripTrailingSlashes rest with
      | EmptyString => if Ascii.eqb c "/"%char then EmptyString else String c EmptyString
      | rest' => String c rest'
      end
  end.

Fixpoint endsWithSlash (s : string) : bool :=
  match s with
  | EmptyString => false
  | String c EmptyString => Ascii.eqb c "/"%char
  | String _ rest => endsWithSlash rest
  end.

(** [class AllscreenshotsClientBuilder]: the object is its private
    [config]; every method returns the updated builder. *)
Module AllscreenshotsClientBuilder.

Definition new : AllscreenshotsConfig := emptyConfig.

Definition withApiKey (key : string) (this : AllscreenshotsConfig) :=
  mkConfig (Some key) (baseUrl this) (timeout this) (retry this) (autoRetry this).

Definition withBaseUrl (url : string) (this : AllscreenshotsConfig) :=
  mkConfig (apiKey this) (Some (stripTrailingSlashes url)) (timeout this)
           (retry this) (autoRetry this).

Definition withTimeout (t : Z) (this : AllscreenshotsConfig) :=
  mkConfig (apiKey this) (baseUrl this) (Some t) (retry this) (autoRetry this).

Definition withRetry (r : PartialRetryConfig) (this : AllscreenshotsConfig) :=
  mkConfig (apiKey this) (baseUrl this) (timeout this) (Some r) (autoRetry this).

Definition withAutoRetry (enabled : bool) (this : AllscreenshotsConfig) :=
  mkConfig (apiKey this) (baseUrl this) (timeout this) (retry this) (Some enabled).

End AllscreenshotsClientBuilder.

(** The private fields of [class AllscreenshotsClient]. *)
Record AllscreenshotsClient := mkClient {
  client_apiKey : string;
  client_baseUrl : string;
  client_timeout : Z;
  client_retryConfig : RetryConfig;
  client_autoRetry : bool
}.

Definition missingKeyMessage : string :=
  "API key is required. Provide it via config or set ALLSCREENSHOTS_API_KEY environment variable.".

Section Constructor.

(** [DEFAULT_RETRY_CONFIG], exported by [utils/retry.ts]. *)
Variable DEFAULT_RETRY_CONFIG : RetryConfig.

(** [process.env.ALLSCREENSHOTS_API_KEY] at the time of the call. *)
Variable env_ALLSCREENSHOTS_API_KEY : option string.

(** [new AllscreenshotsClient(config)] *)
Definition constructor (config : AllscreenshotsConfig)
    : Completion AllscreenshotsClient :=
  let key := Js.or_else (Js.or (apiKey config) env_ALLSCREENSHOTS_API_KEY) "" in
  if String.eqb key "" then
    Throw (AuthenticationError (Some missingKeyMessage))
  else
    Return (mkClient
      key
      (Js.or_else (baseUrl config) DEFAULT_CONFIG.baseUrl)
      (default DEFAULT_CONFIG.timeout (timeout config))
      (spreadRetry DEFAULT_RETRY_CONFIG (retry config))
      (default DEFAULT_CONFIG.autoRetry (autoRetry config))).

(** [builder.build()] *)
Definition build (builder : AllscreenshotsConfig) : Completion AllscreenshotsClient :=
  constructor builder.

End Constructor.

(** *** The request executor *)

(** What a [catch] clause can receive. *)
Inductive Thrown :=
| ThrownSdk (e : AllscreenshotsError)
    (** [error instanceof AllscreenshotsError] *)
| ThrownError (error_name error_message : string)
    (** any other [error instanceof Error] *)
| ThrownOther.
    (** a value that is not an [Error] *)

(** A settled promise. *)
Inductive Settled (A : Type) :=
| Fulfilled (a : A)
| Rejected (t : Thrown).
Arguments Fulfilled {A} a.
Arguments Rejected {A} t.

Definition await {A B : Type} (p : Settled A) (k : A -> Settled B) : Settled B :=
  match p with
  | Fulfilled a => k a
  | Rejected t => Rejected t
  end.

Notation "'let*' x ':=' p 'in' k" := (await p (fun x => k))
  (at level 10, x name, p at level 100, k at level 200).

(** [s.includes(sub)] *)
Fixpoint includes (sub s : string) : bool :=
  String.prefix sub s ||
  match s with
  | EmptyString => false
  | String _ rest => includes sub rest
  end.

(** A query value, [string | number | boolean]; [String(value)]. *)
Inductive Scalar :=
| SString (s : string)
| SNumber (n : Z)
| SBoolean (b : bool).

Definition String_of (v : Scalar) : string :=
  match v with
  | SString s => s
  | SNumber n => Js.show n
  | SBoolean true => "true"
  | SBoolean false => "false"
  end.

(** [URLSearchParams.set]: the first pair named [key] takes the value
    and the later ones go; without one the pair is appended. *)
Fixpoint searchParams_set (key value : string) (params : list (string * string))
    : list (string * string) :=
  match params with
  | [] => [(key, value)]
  | (k, v) :: rest =>
      if String.eqb k key
      then (key, value) :: List.filter (fun p => negb (String.eqb (fst p) key)) rest
      else (k, v) :: searchParams_set key value rest
  end.

(** A [URL] object: the address its constructor was given and the
    query parameters it carries; [toString] belongs to the platform. *)
Record URL := mkURL {
  url_input : string;
  searchParams : list (string * string)
}.

(** The second argument of [fetch] (the abort signal is the attempt's
    timer, see [abortError]). *)
Record RequestInit := mkRequestInit {
  init_method : string;
  init_headers : gmap string string;
  init_body : option string
}.

(** The [Response] members the executor reads. *)
Record Response := mkResponse {
  ok : bool;
  status : Z;
  header_RetryAfter : option string;
  text : Settled string;
  arrayBuffer : Settled (list Byte.byte)
}.

(** What [fetch] rejects with when the controller's signal aborts the
    call, that is when the attempt's timer fires first. *)
Definition abortError : Thrown :=
  ThrownError "AbortError" "This operation was aborted".

(** What Node's [new URL(address)] throws when the address does not
    parse. *)
Definition invalidUrl : Thrown := ThrownError "TypeError" "Invalid URL".

Section Request.

(** The platform's JSON values with [JSON.parse] ([None] when it
    throws), [JSON.stringify], truthiness, the view of a parsed value
    at the type [ApiErrorResponse | string | null] it is cast to, and
    [parseInt(s, 10)] ([None] for [NaN]). *)
Variable Json : Type.
Variable JSON_parse : string -> option Json.
Variable JSON_stringify : Json -> string.
Variable truthyJson : Json -> bool.
Variable asErrorBody : Json -> ErrorBody.
Variable parseInt10 : string -> option Z.

(** [new URL(address)] by what it makes of the address: [None] when it
    throws its [TypeError], else the query parameters the address
    already holds, with which [searchParams] starts. *)
Variable URL_new : string -> option (list (string * string)).

(** The [options] parameter of [request]. *)
Record RequestOptions := mkRequestOptions {
  body : option Json;
  query : option (list (string * option Scalar));
  returnBinary : option bool
}.

(** The generic result [T]: a [Buffer] or the decoded body ([null]
    when there is none). *)
Inductive Payload :=
| BufferFrom (bytes : list Byte.byte)
| Decoded (value : option Json).

Definition isBinary (options : RequestOptions) : bool :=
  default false (returnBinary options).

(** [`${this.baseUrl}${path}`], the address handed to [new URL]. *)
Definition requestAddress (this : AllscreenshotsClient) (path : string) : string :=
  client_baseUrl this +:+ path.

(** The [URL] the closure builds first, outside its [try]: [None] when
    [new URL] throws. *)
Definition buildUrl (this : AllscreenshotsClient) (path : string)
    (options : RequestOptions) : option URL :=
  match URL_new (requestAddress this path) with
  | None => None
  | Some held =>
      match query options with
      | None => Some (mkURL (requestAddress this path) held)
      | Some entries =>
          Some (mkURL (requestAddress this path)
            (fold_left
               (fun params entry =>
                  match snd entry with
                  | Some value => searchParams_set (fst entry) (String_of value) params
                  | None => params
                  end)
               entries held))
      end
  end.

Definition buildInit (this : AllscreenshotsClient) (method : string)
    (options : RequestOptions) : RequestInit :=
  mkRequestInit method
    (<["X-API-Key" := client_apiKey this]>
       (<["Content-Type" := "application/json"]>
          (<["Accept" := if isBinary options
                         then "image/*,application/pdf"
                         else "application/json"]> ∅)))
    (match body options with
     | Some b => if truthyJson b then Some (JSON_stringify b) else None
     | None => None
     end).

(** [retryAfter ? parseInt(retryAfter, 10) : undefined] *)
Definition retryAfterOf (response : Response) : option Z :=
  match header_RetryAfter response with
  | Some h => if String.eqb h "" then None else parseInt10 h
  | None => None
  end.

(** The [try] block once [fetch] has settled. *)
Definition tryBlock (options : RequestOptions) (fetched : Settled Response)
    : Settled Payload :=
  let* response := fetched in
  if isBinary options then
    if negb (ok response) then
      let errorBody :=
        match text response with
        | Fulfilled s => Some s
        | Rejected _ => None
        end in
      let parsed :=
        if Js.truthy errorBody
        then from_option JSON_parse None errorBody
        else None in
      let thrownBody :=
        match parsed with
        | Some j =>
            if truthyJson j then asErrorBody j
            else from_option BodyString BodyNull errorBody
        | None => from_option BodyString BodyNull errorBody
        end in
      Rejected (ThrownSdk
        (parseApiError (status response) thrownBody (retryAfterOf response)))
    else
      let* buffer := arrayBuffer response in
      Fulfilled (BufferFrom buffer)
  else
    let* txt := text response in
    let decoded := if String.eqb txt "" then None else JSON_parse txt in
    if negb (ok response) then
      Rejected (ThrownSdk
        (parseApiError (status response)
           (from_option asErrorBody BodyNull decoded) (retryAfterOf response)))
    else Fulfilled (Decoded decoded).

(** The [catch] block. *)
Definition catchBlock (this : AllscreenshotsClient) (error : Thrown)
    : AllscreenshotsError :=
  match error with
  | ThrownSdk e => e
  | ThrownError nm msg =>
      if String.eqb nm "AbortError" then
        TimeoutError
          (Some ("Request timed out after " +:+ Js.show (client_timeout this) +:+ "ms"))
      else if includes "fetch" msg then
        NetworkError (Some ("Network error: " +:+ msg))
      else NetworkError (Some "Unknown network error occurred")
  | ThrownOther => NetworkError (Some "Unknown network error occurred")
  end.

(** One run of the [execute] closure of [request], by how the promise
    it returns settles; [fetch] is how the platform answers the call.
    The [TypeError] of [new URL] is thrown before the [try] and leaves
    the closure as it is. *)
Definition execute (this : AllscreenshotsClient) (method path : string)
    (options : RequestOptions) (fetch : URL -> RequestInit -> Settled Response)
    : Settled Payload :=
  match buildUrl this path options with
  | None => Rejected invalidUrl
  | Some url =>
      match tryBlock options (fetch url (buildInit this method options)) with
      | Fulfilled payload => Fulfilled payload
      | Rejected error => Rejected (ThrownSdk (catchBlock this error))
      end
  end.

End Request.

(** ** utils/retry.ts *)

(** Modelled from the spec: [uniform_random(lo, hi)] of the Backoff
    Calculator (section 4.2), [u] being the sample of [0, 1) it is drawn
    from. *)
Definition uniform_random (lo hi u : Q) : Q := (lo + u * (hi - lo))%Q.

(** Modelled from the spec: [calculateDelay], whose source file
    [utils/retry.ts] is not at hand. Section 4.2: the base is
    [initial_delay * multiplier ^ attempt_index] capped at [max_delay];
    the final delay is the base plus a uniform draw from
    [-jitter_factor * base, +jitter_factor * base], clamped to be
    non-negative. *)
Definition calculateDelay (attempt : nat) (config : RetryConfig) (u : Q) : Q :=
  let base :=
    Qmin (initialDelayMs config * backoffMultiplier config ^ Z.of_nat attempt)%Q
         (maxDelayMs config) in
  let spread := (jitterFactor config * base)%Q in
  Qmax 0 (base + uniform_random (- spread) spread u)%Q.

(** Modelled from the spec: [isRetryableError], the retryability
    predicate of section 4.1: [rate_limited], [server], [network] and
    [timeout] are retryable, the other kinds are not. *)
Definition isRetryableError (e : AllscreenshotsError) : bool :=
  match kind e with
  | RateLimited | Server | Network | Timeout => true
  | Validation | Authentication | NotFound | QuotaExceeded | Unknown => false
  end.

Section RetryController.

Context {W T : Type}.

(** The retryable operation: a thunk, each invocation of which
    completes with a value or an error and leaves the world changed. *)
Variable operation : W -> Completion T * W.
Variable config : RetryConfig.

(** The sample drawn for the delay that follows attempt [i]. *)
Variable random : nat -> Q.

(** Modelled from the spec: the states of the Retry Controller
    (section 4.4). *)
Inductive State :=
| attempting (attempt : nat)
| waiting (attempt : nat) (delay : Q)
| succeeded (value : T)
| failed_terminal (e : AllscreenshotsError).

(** Modelled from the spec: what an observer sees of a run of the
    controller, the invocations with their outcomes and the suspensions
    with their durations, oldest first. *)
Inductive Event :=
| Invoked (outcome : Completion T)
| Suspended (ms : Q).

(** Modelled from the spec: the controller between two transitions. *)
Record Controller := mkController {
  state : State;
  world : W;
  trace : list Event
}.

(** Modelled from the spec: the delay of the waiting state, section
    4.2 with its override: a [rate_limited] failure that carries a
    retry-after hint waits [hint_seconds * 1000] milliseconds. *)
Definition retryDelay (attempt : nat) (e : AllscreenshotsError) : Q :=
  match kind e, retryAfter e with
  | RateLimited, Some seconds => inject_Z (seconds * 1000)
  | _, _ => calculateDelay attempt config (random attempt)
  end.

(** Modelled from the spec: one transition of the state machine of
    section 4.4. *)
Definition step (c : Controller) : Controller :=
  match state c with
  | attempting i =>
      let (outcome, w) := operation (world c) in
      let seen := (trace c ++ [Invoked outcome])%list in
      match outcome with
      | Return v => mkController (succeeded v) w seen
      | Throw e =>
          if negb (isRetryableError e) || (maxRetries config <=? i)%nat
          then mkController (failed_terminal e) w seen
          else mkController (waiting i (retryDelay i e)) w seen
      end
  | waiting i delay =>
      mkController (attempting (S i)) (world c) (trace c ++ [Suspended delay])%list
  | succeeded _ | failed_terminal _ => c
  end.

(** Modelled from the spec: [fuel] transitions in a row. *)
Fixpoint run (fuel : nat) (c : Controller) : Controller :=
  match fuel with
  | O => c
  | S fuel' => run fuel' (step c)
  end.

(** Modelled from the spec: [withRetry], the Retry Controller started
    in [attempting] with attempt index 0. Every attempt but the last
    takes two transitions, the last one takes one. *)
Definition withRetry (w : W) : Controller :=
  run (2 * maxRetries config + 1) (mkController (attempting 0) w []).

Definition terminal (c : Controller) : bool :=
  match state c with
  | succeeded _ | failed_terminal _ => true
  | attempting _ | waiting _ _ => false
  end.

Definition outcomesOf (tr : list Event) : list (Completion T) :=
  omap (fun ev => match ev with Invoked o => Some o | Suspended _ => None end) tr.

Definition outcomes (c : Controller) : list (Completion T) := outcomesOf (trace c).

(** What the caller receives once the controller has ended. *)
Definition surfaced (c : Controller) : option (Completion T) :=
  match state c with
  | succeeded v => Some (Return v)
  | failed_terminal e => Some (Throw e)
  | attempting _ | waiting _ _ => None
  end.

Definition invocations (c : Controller) : nat := length (outcomes c).

Definition suspensions (c : Controller) : list Q :=
  omap (fun ev => match ev with Suspended d => Some d | Invoked _ => None end)
       (trace c).

End RetryController.

Arguments attempting {T} attempt.
Arguments waiting {T} attempt delay.
Arguments succeeded {T} value.
Arguments failed_terminal {T} e.
Arguments Invoked {T} outcome.
Arguments Suspended {T} ms.

(** ** client.ts: the endpoint methods *)

Module Endpoint.

Section Calls.

(** The request objects, as the platform's values,
    [encodeURIComponent] and [new URL]. *)
Variable Json : Type.
Variable encodeURIComponent : string -> string.
Variable URL_new : string -> option (list (string * string)).

(** The [params] of [previewLayout]. *)
Record LayoutPreviewParams := mkLayoutPreviewParams {
  layout : string;
  imageCount : Z;
  canvasWidth : option Z;
  canvasHeight : option Z;
  aspectRatios : option string
}.

(** A call of an endpoint method with its arguments. *)
Inductive Call :=
| screenshot (request : Json)
| screenshotAsync (request : Json)
| listJobs
| getJob (id : string)
| getJobResult (id : string)
| cancelJob (id : string)
| createBulkJob (request : Json)
| listBulkJobs
| getBulkJob (id : string)
| cancelBulkJob (id : string)
| compose (request : Json)
| previewLayout (params : LayoutPreviewParams)
| listComposeJobs
| getComposeJob (jobId : string)
| createSchedule (request : Json)
| listSchedules
| getSchedule (id : string)
| updateSchedule (id : string) (request : Json)
| deleteSchedule (id : string)
| pauseSchedule (id : string)
| resumeSchedule (id : string)
| triggerSchedule (id : string)
| getScheduleHistory (id : string) (limit : option Z)
| getUsage
| getQuotaStatus.

(** The arguments a method hands to [this.request]. *)
Record RequestArgs := mkRequestArgs {
  arg_method : string;
  arg_path : string;
  arg_options : RequestOptions Json
}.

Definition bare : RequestOptions Json := mkRequestOptions Json None None None.

Definition withBody (request : Json) : RequestOptions Json :=
  mkRequestOptions Json (Some request) None None.

Definition requestOf (call : Call) : RequestArgs :=
  match call with
  | screenshot request =>
      mkRequestArgs "POST" "/v1/screenshots"
        (mkRequestOptions Json (Some request) None (Some true))
  | screenshotAsync request =>
      mkRequestArgs "POST" "/v1/screenshots/async" (withBody request)
  | listJobs => mkRequestArgs "GET" "/v1/screenshots/jobs" bare
  | getJob id =>
      mkRequestArgs "GET" ("/v1/screenshots/jobs/" +:+ encodeURIComponent id) bare
  | getJobResult id =>
      mkRequestArgs "GET"
        ("/v1/screenshots/jobs/" +:+ encodeURIComponent id +:+ "/result")
        (mkRequestOptions Json None None (Some true))
  | cancelJob id =>
      mkRequestArgs "POST"
        ("/v1/screenshots/jobs/" +:+ encodeURIComponent id +:+ "/cancel") bare
  | createBulkJob request =>
      mkRequestArgs "POST" "/v1/screenshots/bulk" (withBody request)
  | listBulkJobs => mkRequestArgs "GET" "/v1/screenshots/bulk" bare
  | getBulkJob id =>
      mkRequestArgs "GET" ("/v1/screenshots/bulk/" +:+ encodeURIComponent id) bare
  | cancelBulkJob id =>
      mkRequestArgs "POST"
        ("/v1/screenshots/bulk/" +:+ encodeURIComponent id +:+ "/cancel") bare
  | compose request =>
      mkRequestArgs "POST" "/v1/screenshots/compose" (withBody request)
  | previewLayout params =>
      mkRequestArgs "GET" "/v1/screenshots/compose/preview"
        (mkRequestOptions Json None
           (Some [("layout", Some (SString (layout params)));
                  ("image_count", Some (SNumber (imageCount params)));
                  ("canvas_width", SNumber <$> canvasWidth params);
                  ("canvas_height", SNumber <$> canvasHeight params);
                  ("aspect_ratios", SString <$> aspectRatios params)])
           None)
  | listComposeJobs => mkRequestArgs "GET" "/v1/screenshots/compose/jobs" bare
  | getComposeJob jobId =>
      mkRequestArgs "GET"
        ("/v1/screenshots/compose/jobs/" +:+ encodeURIComponent jobId) bare
  | createSchedule request => mkRequestArgs "POST" "/v1/schedules" (withBody request)
  | listSchedules => mkRequestArgs "GET" "/v1/schedules" bare
  | getSchedule id =>
      mkRequestArgs "GET" ("/v1/schedules/" +:+ encodeURIComponent id) bare
  | updateSchedule id request =>
      mkRequestArgs "PUT" ("/v1/schedules/" +:+ encodeURIComponent id)
        (withBody request)
  | deleteSchedule id =>
      mkRequestArgs "DELETE" ("/v1/schedules/" +:+ encodeURIComponent id) bare
  | pauseSchedule id =>
      mkRequestArgs "POST" ("/v1/schedules/" +:+ encodeURIComponent id +:+ "/pause") bare
  | resumeSchedule id =>
      mkRequestArgs "POST" ("/v1/schedules/" +:+ encodeURIComponent id +:+ "/resume")
        bare
  | triggerSchedule id =>
      mkRequestArgs "POST" ("/v1/schedules/" +:+ encodeURIComponent id +:+ "/trigger")
        bare
  | getScheduleHistory id limit =>
      mkRequestArgs "GET" ("/v1/schedules/" +:+ encodeURIComponent id +:+ "/history")
        (mkRequestOptions Json None (Some [("limit", SNumber <$> limit)]) None)
  | getUsage => mkRequestArgs "GET" "/v1/usage" bare
  | getQuotaStatus => mkRequestArgs "GET" "/v1/usage/quota" bare
  end.

(** The address a call hands to [new URL] and the [URL] its attempts
    build. *)
Definition addressOf (this : AllscreenshotsClient) (call : Call) : string :=
  requestAddress this (arg_path (requestOf call)).

Definition urlOf (this : AllscreenshotsClient) (call : Call) : option URL :=
  buildUrl Json URL_new this (arg_path (requestOf call)) (arg_options (requestOf call)).

End Calls.

End Endpoint.

(** ** sample-app/src/server/index.ts *)

Module SampleServer.

(** [req.body as ScreenshotRequestBody]; a field may be missing. *)
Record ScreenshotRequestBody := mkScreenshotRequestBody {
  url : option string;
  device : option string;
  fullPage : option bool
}.

(** The object literal handed to [client.screenshot]. *)
Record ScreenshotRequest := mkScreenshotRequest {
  request_url : string;
  request_device : string;
  request_fullPage : bool;
  request_format : string
}.

(** What [res.json] is given. *)
Inductive ReplyBody :=
| ErrorBody (error : string) (errorCode : option string)
| SuccessBody (image : string) (elapsed : Z)
    (** [{ success: true, image, elapsed }] *)
| HealthBody (status : string) (apiKeyConfigured : bool).

(** A reply: the status set by [res.status], 200 without one, and the
    body. *)
Record Reply := mkReply {
  reply_status : Z;
  reply_body : ReplyBody
}.

Section Server.

Variable DEFAULT_RETRY_CONFIG : RetryConfig.

(** [buffer.toString('base64')] *)
Variable toBase64 : list Byte.byte -> string.

(** The module-level [client]: [new AllscreenshotsClient()] or, when
    that throws, [null]. *)
Definition initClient (env : option string) : option AllscreenshotsClient :=
  match constructor DEFAULT_RETRY_CONFIG env emptyConfig with
  | Return c => Some c
  | Throw _ => None
  end.

(** [error.statusCode || 500] *)
Definition statusOr500 (code : option Z) : Z :=
  match code with
  | Some s => if (s =? 0)%Z then 500%Z else s
  | None => 500%Z
  end.

(** The handler of [POST /api/screenshot]. [screenshot] is how the call
    of [client.screenshot] settles and [elapsed] the difference of the
    two readings of the clock. *)
Definition postScreenshot (client : option AllscreenshotsClient)
    (reqBody : ScreenshotRequestBody)
    (screenshot : AllscreenshotsClient -> ScreenshotRequest -> Settled (list Byte.byte))
    (elapsed : Z) : Reply :=
  match client with
  | None =>
      mkReply 500
        (ErrorBody
           "API key not configured. Set ALLSCREENSHOTS_API_KEY environment variable."
           None)
  | Some c =>
      if negb (Js.truthy (url reqBody)) then
        mkReply 400 (ErrorBody "URL is required" None)
      else
        match screenshot c
                (mkScreenshotRequest
                   (default "" (url reqBody))
                   (Js.or_else (device reqBody) "Desktop HD")
                   (default false (fullPage reqBody))
                   "png")
        with
        | Fulfilled imageBuffer =>
            mkReply 200
              (SuccessBody ("data:image/png;base64," +:+ toBase64 imageBuffer) elapsed)
        | Rejected (ThrownSdk error) =>
            mkReply (statusOr500 (statusCode error))
                    (ErrorBody (message error) (errorCode error))
        | Rejected (ThrownError _ msg) => mkReply 500 (ErrorBody msg None)
        | Rejected ThrownOther => mkReply 500 (ErrorBody "Unknown error occurred" None)
        end
  end.

(** The handler of [GET /api/health]. *)
Definition getHealth (client : option AllscreenshotsClient) : Reply :=
  mkReply 200
    (HealthBody "ok" (match client with Some _ => true | None => false end)).

End Server.

End SampleServer.

(** * The vocabulary of the properties *)

(** ** The classifier *)

(** The status table of section 4.1, in its priority order; a status
    that is not listed is [Unknown]. *)
Definition statusTable : list (Z * ErrorKind) :=
  [ (400, Validation); (401, Authentication); (403, Authentication);
    (402, QuotaExceeded); (404, NotFound); (429, RateLimited);
    (500, Server); (502, Server); (503, Server); (504, Server) ]%Z.

Fixpoint assocZ (s : Z) (table : list (Z * ErrorKind)) : option ErrorKind :=
  match table with
  | [] => None
  | (s', k) :: rest => if (s' =? s)%Z then Some k else assocZ s rest
  end.

Definition statusKind (s : Z) : ErrorKind := default Unknown (assocZ s statusTable).

(** The message as the design document words it: the body itself when
    it is a string, else its message field, else its error field, else
    the fallback, a field counting as soon as it is there. *)
Definition claimedMessage (s : Z) (b : ErrorBody) : string :=
  match b with
  | BodyString str => str
  | BodyObject r =>
      match resp_message r, resp_error r with
      | Some m, _ => m
      | None, Some e => e
      | None, None => httpFallback s
      end
  | BodyNull => httpFallback s
  end.

(** The message the code extracts: an empty field is passed over like
    an absent one. *)
Inductive MessageOf (s : Z) : ErrorBody -> string -> Prop :=
| message_is_body str :
    MessageOf s (BodyString str) str
| message_from_message r m :
    resp_message r = Some m -> m <> "" ->
    MessageOf s (BodyObject r) m
| message_from_error r m :
    (resp_message r = None \/ resp_message r = Some "") ->
    resp_error r = Some m -> m <> "" ->
    MessageOf s (BodyObject r) m
| message_fallback r :
    (resp_message r = None \/ resp_message r = Some "") ->
    (resp_error r = None \/ resp_error r = Some "") ->
    MessageOf s (BodyObject r) (httpFallback s)
| message_fallback_null :
    MessageOf s BodyNull (httpFallback s).

(** A field of the body when the body is a structured object. *)
Definition bodyField {A : Type} (field : ApiErrorResponse -> option A)
    (b : ErrorBody) : option A :=
  match b with
  | BodyObject o => field o
  | BodyString _ | BodyNull => None
  end.

(** ** The client's configuration *)

(** The values the README configures. *)
Definition readmeRetryConfig : RetryConfig :=
  mkRetryConfig 5 1000 30000 2 (1 # 10).

(** [config] with its [apiKey] left out. *)
Definition withoutApiKey (config : AllscreenshotsConfig) : AllscreenshotsConfig :=
  mkConfig None (baseUrl config) (timeout config) (retry config) (autoRetry config).

(** ** The request executor *)

(** A small platform to run the executor on: a JSON value is its own
    text, and a parsed value is seen as a plain string. *)
Module TextPlatform.
Definition Json : Type := string.
Definition JSON_parse (s : string) : option Json := Some s.
Definition JSON_stringify (j : Json) : string := j.
Definition truthyJson (j : Json) : bool := negb (String.eqb j "").
Definition asErrorBody (j : Json) : ErrorBody := BodyString j.
Definition parseInt10 (s : string) : option Z :=
  if String.eqb s "5" then Some 5%Z else None.

(** Addresses that start with a web scheme parse; what follows the
    first question mark, if there is something, is held as one query
    parameter, split at its first equals sign. *)
Definition URL_new (address : string) : option (list (string * string)) :=
  if String.prefix "https://" address || String.prefix "http://" address
  then
    match String.index 0 "?" address with
    | None => Some []
    | Some i =>
        let held := String.substring (S i) (String.length address - S i) address in
        if String.eqb held "" then Some []
        else
          match String.index 0 "=" held with
          | None => Some [(held, "")]
          | Some j =>
              Some [(String.substring 0 j held,
                     String.substring (S j) (String.length held - S j) held)]
          end
    end
  else None.

Definition client : AllscreenshotsClient :=
  mkClient "test-key" DEFAULT_CONFIG.baseUrl DEFAULT_CONFIG.timeout
           readmeRetryConfig false.

Definition run (method path : string) (options : RequestOptions Json)
    (fetch : URL -> RequestInit -> Settled Response) : Settled (Payload Json) :=
  execute Json JSON_parse JSON_stringify truthyJson asErrorBody parseInt10 URL_new
          client method path options fetch.
End TextPlatform.

(** The headers of a request of [this] client made with [options]. *)
Definition carriesHeaders {Json : Type} (this : AllscreenshotsClient)
    (options : RequestOptions Json) (init : RequestInit) : Prop :=
  init_headers init !! "X-API-Key" = Some (client_apiKey this) /\
  init_headers init !! "Accept"
  = Some (if isBinary Json options then "image/*,application/pdf"
          else "application/json") /\
  init_headers init !! "Content-Type" = Some "application/json".

Definition noOptions : RequestOptions TextPlatform.Json :=
  mkRequestOptions TextPlatform.Json None None None.

Definition emptyOk : Response :=
  mkResponse true 200 None (Fulfilled "") (Fulfilled []).

(** What [fetch] rejects with when the connection is refused. *)
Definition connectionRefused : Thrown := ThrownError "TypeError" "fetch failed".

(** The [URL] of a request of [/v1/usage] by the test client. *)
Definition usageUrl : URL := mkURL "https://api.allscreenshots.com/v1/usage" [].

(** The [URL] of a request of [/v1/screenshots] by the test client. *)
Definition screenshotsUrl : URL :=
  mkURL "https://api.allscreenshots.com/v1/screenshots" [].

(** A client whose base address lacks the scheme, so that no address
    made of it parses. *)
Definition schemelessClient : AllscreenshotsClient :=
  mkClient "test-key" "api.example.com" DEFAULT_CONFIG.timeout readmeRetryConfig false.

(** A client behind a proxy whose base address carries a query. *)
Definition proxyClient : AllscreenshotsClient :=
  mkClient "test-key" "https://proxy.example.com/api?tenant=a" DEFAULT_CONFIG.timeout
           readmeRetryConfig false.

(** A platform that turns away every request without the test key. *)
Definition guardedFetch (url : URL) (init : RequestInit) : Settled Response :=
  if decide (init_headers init !! "X-API-Key" = Some "test-key")
  then Fulfilled emptyOk
  else Rejected ThrownOther.

(** ** The backoff calculator *)

(** The delay before jitter: the exponential value under its ceiling. *)
Definition cappedDelay (attempt : nat) (config : RetryConfig) : Q :=
  Qmin (initialDelayMs config * backoffMultiplier config ^ Z.of_nat attempt)%Q
       (maxDelayMs config).

(** The configuration of the unit tests of [calculateDelay]: the
    doubling delays they expect, without jitter. *)
Definition doublingConfig : RetryConfig := mkRetryConfig 3 1000 30000 2 0.

(** ** The retry controller *)

Definition retryableKinds : list ErrorKind := [RateLimited; Server; Network; Timeout].

Definition terminalKinds : list ErrorKind :=
  [Validation; Authentication; NotFound; QuotaExceeded; Unknown].

Section ControllerVocabulary.

Context {W T : Type}.
Variable operation : W -> Completion T * W.
Variable config : RetryConfig.
Variable random : nat -> Q.

(** The operation fails on every invocation, with a retryable error. *)
Definition alwaysFailsRetryably : Prop :=
  forall w, exists e w',
    operation w = (Throw e, w') /\ isRetryableError e = true.

(** In a trace, whatever follows a [rate_limited] failure that carries
    a hint of [h] seconds is a suspension of [h * 1000] milliseconds. *)
Definition hintHonoured (tr : list (@Event T)) : Prop :=
  forall k e h ev,
    tr !! k = Some (Invoked (Throw e)) ->
    kind e = RateLimited -> retryAfter e = Some h ->
    tr !! S k = Some ev ->
    ev = Suspended (inject_Z (h * 1000)).

(** What every transition keeps true. *)
Definition hintInvariant (c : @Controller W T) : Prop :=
  hintHonoured (trace c) /\
  match state c with
  | attempting _ => forall o, last (trace c) <> Some (Invoked o)
  | waiting i d =>
      exists e, last (trace c) = Some (Invoked (Throw e)) /\
                d = retryDelay config random i e
  | succeeded _ | failed_terminal _ => True
  end.

End ControllerVocabulary.

(** *** The scenarios of the unit tests of [withRetry]

    The world is the number of invocations made so far. *)

Definition alwaysRejects (e : AllscreenshotsError) (n : nat)
    : Completion string * nat :=
  (Throw e, S n).

Definition rejectsOnce (e : AllscreenshotsError) (n : nat)
    : Completion string * nat :=
  match n with
  | O => (Throw e, 1)
  | S _ => (Return "success", S n)
  end.

Definition halves (attempt : nat) : Q := 1 # 2.

Definition withMaxRetries (n : nat) : RetryConfig :=
  mkRetryConfig n 1000 30000 2 (1 # 10).

(** ** Uses of the builder *)

(** [n] slashes in a row. *)
Fixpoint slashes (n : nat) : string :=
  match n with
  | O => EmptyString
  | S k => String "/"%char (slashes k)
  end.

(** A call of one of the builder's configuring methods. *)
Inductive BuilderCall :=
| CallWithApiKey (key : string)
| CallWithBaseUrl (url : string)
| CallWithTimeout (t : Z)
| CallWithRetry (r : PartialRetryConfig)
| CallWithAutoRetry (enabled : bool).

Definition applyCall (this : AllscreenshotsConfig) (call : BuilderCall)
    : AllscreenshotsConfig :=
  match call with
  | CallWithApiKey key => AllscreenshotsClientBuilder.withApiKey key this
  | CallWithBaseUrl url => AllscreenshotsClientBuilder.withBaseUrl url this
  | CallWithTimeout t => AllscreenshotsClientBuilder.withTimeout t this
  | CallWithRetry r => AllscreenshotsClientBuilder.withRetry r this
  | CallWithAutoRetry enabled => AllscreenshotsClientBuilder.withAutoRetry enabled this
  end.

(** [new AllscreenshotsClientBuilder()] followed by the chained calls. *)
Definition chained (calls : list BuilderCall) : AllscreenshotsConfig :=
  fold_left applyCall calls AllscreenshotsClientBuilder.new.

Definition apiKeyOfCall (call : BuilderCall) : option string :=
  match call with CallWithApiKey key => Some key | _ => None end.

Definition baseUrlOfCall (call : BuilderCall) : option string :=
  match call with CallWithBaseUrl url => Some url | _ => None end.

Definition timeoutOfCall (call : BuilderCall) : option Z :=
  match call with CallWithTimeout t => Some t | _ => None end.

Definition retryOfCall (call : BuilderCall) : option PartialRetryConfig :=
  match call with CallWithRetry r => Some r | _ => None end.

Definition autoRetryOfCall (call : BuilderCall) : option bool :=
  match call with CallWithAutoRetry enabled => Some enabled | _ => None end.

(** ** Bodies that differ in one field *)

Definition setErrorCode (code : option string) (b : ErrorBody) : ErrorBody :=
  match b with
  | BodyObject o =>
      BodyObject (mkApiErrorResponse (resp_error o) (resp_message o) code
                                     (resp_statusCode o) (resp_validationErrors o))
  | BodyString _ | BodyNull => b
  end.

Definition setStatusCode (code : option Z) (b : ErrorBody) : ErrorBody :=
  match b with
  | BodyObject o =>
      BodyObject (mkApiErrorResponse (resp_error o) (resp_message o) (resp_errorCode o)
                                     code (resp_validationErrors o))
  | BodyString _ | BodyNull => b
  end.

Definition setValidationErrors (errs : option (gmap string string)) (b : ErrorBody)
    : ErrorBody :=
  match b with
  | BodyObject o =>
      BodyObject (mkApiErrorResponse (resp_error o) (resp_message o) (resp_errorCode o)
                                     (resp_statusCode o) errs)
  | BodyString _ | BodyNull => b
  end.

(** ** Answers of the platform *)

(** A promise of the platform never rejects with an error of the SDK. *)
Definition foreign {A : Type} (p : Settled A) : Prop :=
  forall e, p <> Rejected (ThrownSdk e).

Definition binaryOptions : RequestOptions TextPlatform.Json :=
  mkRequestOptions TextPlatform.Json None None (Some true).

(** A 429 with [Retry-After: 5] and a text body. *)
Definition tooManyRequests : Response :=
  mkResponse false 429 (Some "5") (Fulfilled "slow down") (Fulfilled []).

(** A 503 with [Retry-After: 5] and an empty body. *)
Definition unavailable : Response :=
  mkResponse false 503 (Some "5") (Fulfilled "") (Fulfilled []).

(** ** Query entries *)

(** The pair a query entry contributes: none when its value is
    [undefined]. *)
Definition definedPair (entry : string * option Scalar) : option (string * string) :=
  match snd entry with
  | Some value => Some (fst entry, String_of value)
  | None => None
  end.

(** One round of the loop over [Object.entries(options.query)]. *)
Definition setEntry (params : list (string * string)) (entry : string * option Scalar)
    : list (string * string) :=
  match snd entry with
  | Some value => searchParams_set (fst entry) (String_of value) params
  | None => params
  end.

(** How many of the parameters are named [key]. *)
Definition occurrences (key : string) (params : list (string * string)) : nat :=
  length (List.filter (fun p => String.eqb (fst p) key) params).

(** The query of a layout preview that leaves two settings out. *)
Definition previewEntries : list (string * option Scalar) :=
  [("layout", Some (SString "GRID")); ("image_count", Some (SNumber 4));
   ("canvas_width", None); ("canvas_height", Some (SNumber 800));
   ("aspect_ratios", None)].

(** A stand-in for [encodeURIComponent] that escapes the slash. *)
Fixpoint escapeSlashes (s : string) : string :=
  match s with
  | EmptyString => EmptyString
  | String c rest =>
      if Ascii.eqb c "/"%char then "%2F" +:+ escapeSlashes rest
      else String c (escapeSlashes rest)
  end.

(** * Properties *)

(** ** The classifier *)

Lemma parsedMessage_MessageOf s b : MessageOf s b (parsedMessage s b).
Proof.
  destruct b as [r | str |]; simpl; [ | constructor | constructor ].
  unfold Js.or, Js.or_else, Js.truthy.
  destruct (resp_message r) as [m |] eqn:Hm.
  - destruct (String.eqb_spec m "") as [-> | Hne]; simpl.
    + destruct (resp_error r) as [e |] eqn:He.
      * destruct (String.eqb_spec e "") as [-> | Hne'].
        -- apply message_fallback; auto.
        -- apply message_from_error; auto.
      * apply message_fallback; auto.
    + destruct (String.eqb_spec m "") as [-> | _]; [congruence |].
      apply message_from_message; auto.
  - simpl. destruct (resp_error r) as [e |] eqn:He.
    + destruct (String.eqb_spec e "") as [-> | Hne'].
      * apply message_fallback; auto.
      * apply message_from_error; auto.
    + apply message_fallback; auto.
Qed.

(** The extracted message is the only one the description allows. *)
Lemma MessageOf_functional s b m1 m2 :
  MessageOf s b m1 -> MessageOf s b m2 -> m1 = m2.
Proof.
  intros H1 H2.
  destruct H1; inversion H2; subst; try reflexivity; try congruence;
    repeat match goal with
           | H : _ \/ _ |- _ => destruct H
           end; congruence.
Qed.

Lemma message_parseApiError s b r :
  message (parseApiError s b r) = parsedMessage s b.
Proof.
  unfold parseApiError.
  repeat match goal with
         | |- context [if ?c then _ else _] => destruct c
         end; reflexivity.
Qed.

Lemma kind_parseApiError s b r : kind (parseApiError s b r) = statusKind s.
Proof.
  unfold parseApiError, statusKind, statusTable; cbn [assocZ].
  rewrite !(Z.eqb_sym _ s).
  repeat match goal with
         | |- context [(s =? ?k)%Z] =>
             destruct (Z.eqb_spec s k) as [-> | ?]; [reflexivity |]
         end.
  reflexivity.
Qed.

(** C1, as stated, fails: a body whose message field is the empty
    string and whose error field is ["Bad request"] yields the message
    ["Bad request"], not the message field. *)
Lemma parseApiError_skips_empty_message :
  let b := BodyObject (mkApiErrorResponse (Some "Bad request") (Some "") None None None) in
  resp_message (mkApiErrorResponse (Some "Bad request") (Some "") None None None) = Some "" /\
  message (parseApiError 400 b None) = "Bad request" /\
  message (parseApiError 400 b None) <> claimedMessage 400 b.
Proof.
  cbv zeta. split; [reflexivity |]. split; [reflexivity |].
  rewrite message_parseApiError. simpl. discriminate.
Qed.

(** C1 (amended). For every status [s], body [b] and retry-after hint
    [r], [parseApiError s b r] is one error whose kind is the one the
    status table gives for [s] (400 validation; 401, 403 authentication;
    402 quota_exceeded; 404 not_found; 429 rate_limited; 500, 502, 503,
    504 server; anything else unknown). A validation error carries [b]'s
    validationErrors, a rate_limited error carries [r], a server error
    keeps [s], an unknown error keeps [s] and [b]'s errorCode. The
    message is [b] itself when [b] is a string, else [b]'s message field
    when it is present and not empty, else [b]'s error field when it is
    present and not empty, else ["HTTP {s} error"]. *)
Theorem parseApiError_classifies (s : Z) (b : ErrorBody) (r : option Z) :
  let e := parseApiError s b r in
  kind e = statusKind s /\
  MessageOf s b (message e) /\
  match statusKind s with
  | Validation => validationErrors e = bodyField resp_validationErrors b
  | RateLimited => retryAfter e = r
  | Server => statusCode e = Some s
  | Unknown => statusCode e = Some s /\ errorCode e = bodyField resp_errorCode b
  | Authentication | QuotaExceeded | NotFound | Network | Timeout => True
  end.
Proof.
  cbv zeta. split; [apply kind_parseApiError |].
  split; [rewrite message_parseApiError; apply parsedMessage_MessageOf |].
  unfold parseApiError, statusKind, statusTable; cbn [assocZ].
  rewrite !(Z.eqb_sym _ s).
  repeat match goal with
         | |- context [(s =? ?k)%Z] =>
             destruct (Z.eqb_spec s k) as [-> | ?]; [destruct b; simpl; auto |]
         end.
  destruct b; simpl; auto.
Qed.

(** The cases of the unit tests of [parseApiError]. *)
Example parseApiError_teapot :
  let e := parseApiError 418
             (BodyObject (mkApiErrorResponse None (Some "I'm a teapot") None None None))
             None in
  class_of e = AllscreenshotsErrorC /\ message e = "I'm a teapot" /\
  statusCode e = Some 418%Z.
Proof. repeat split. Qed.

Example parseApiError_rate_limit :
  retryAfter
    (parseApiError 429
       (BodyObject (mkApiErrorResponse None (Some "Rate limited") None None None))
       (Some 60%Z)) = Some 60%Z.
Proof. reflexivity. Qed.

Example parseApiError_null_body :
  message (parseApiError 500 BodyNull None) = "HTTP 500 error".
Proof. vm_compute. reflexivity. Qed.

Example parseApiError_string_body :
  message (parseApiError 400 (BodyString "Plain text error") None) = "Plain text error".
Proof. reflexivity. Qed.

(** ** The client's configuration *)

Lemma stripTrailingSlashes_no_trailing s :
  endsWithSlash (stripTrailingSlashes s) = false.
Proof.
  induction s as [| c rest IH]; [reflexivity |].
  cbn [stripTrailingSlashes].
  destruct (stripTrailingSlashes rest) as [| c' rest'] eqn:Hrest.
  - destruct (Ascii.eqb c "/") eqn:Hc; [reflexivity |]. simpl. exact Hc.
  - exact IH.
Qed.

Lemma stripTrailingSlashes_id s :
  endsWithSlash s = false -> stripTrailingSlashes s = s.
Proof.
  induction s as [| c rest IH]; [reflexivity |].
  destruct rest as [| c' rest'].
  - simpl. intros ->. reflexivity.
  - intros H. change (endsWithSlash (String c' rest') = false) in H.
    cbn [stripTrailingSlashes]. fold stripTrailingSlashes.
    change (match stripTrailingSlashes (String c' rest') with
            | EmptyString =>
                if Ascii.eqb c "/" then EmptyString else String c EmptyString
            | String a r => String c (String a r)
            end = String c (String c' rest')).
    rewrite (IH H). reflexivity.
Qed.

Example strip_custom : stripTrailingSlashes "https://custom.api.com///" = "https://custom.api.com".
Proof. reflexivity. Qed.

(** Through the builder the stored address never ends in a slash. *)
Lemma builder_baseUrl_stripped D env (url : string) (b : AllscreenshotsConfig) c :
  build D env (AllscreenshotsClientBuilder.withBaseUrl url b) = Return c ->
  endsWithSlash (client_baseUrl c) = false.
Proof.
  unfold build, constructor. cbn [AllscreenshotsClientBuilder.withBaseUrl baseUrl].
  destruct (String.eqb _ ""); [discriminate |].
  intros [= <-]. cbn [client_baseUrl Js.or_else].
  destruct (String.eqb (stripTrailingSlashes url) "");
    [reflexivity | apply stripTrailingSlashes_no_trailing].
Qed.

(** C8 at its failing input: a base address given to the constructor
    directly keeps its trailing slash, and the request address built
    from it, the one [new URL] is given and the [URL] then holds, has
    two slashes in a row. *)
Theorem constructor_keeps_trailing_slash (D : RetryConfig) (env : option string)
    (Json : Type) (URL_new : string -> option (list (string * string))) :
  let config := mkConfig (Some "key") (Some "https://api.example.com/") None None None in
  exists c,
    constructor D env config = Return c /\
    client_baseUrl c = "https://api.example.com/" /\
    endsWithSlash (client_baseUrl c) = true /\
    requestAddress c "/v1/usage" = "https://api.example.com//v1/usage" /\
    buildUrl Json URL_new c "/v1/usage" (mkRequestOptions Json None None None)
    = mkURL "https://api.example.com//v1/usage"
        <$> URL_new "https://api.example.com//v1/usage".
Proof.
  cbv zeta. eexists. split; [reflexivity |]. repeat split.
Qed.

(** C9, as stated, fails: the error of a construction without a
    credential is the very error the classifier returns for a 401
    response with that text, so its kind is a request-time kind. *)
Lemma constructor_error_is_request_kind :
  exists e,
    constructor readmeRetryConfig None emptyConfig = Throw e /\
    e = parseApiError 401 (BodyString missingKeyMessage) None /\
    ~ (forall s b r, kind e <> kind (parseApiError s b r)).
Proof.
  eexists. split; [reflexivity |]. split; [reflexivity |].
  intros H. apply (H 401%Z BodyNull None). reflexivity.
Qed.

Lemma truthy_Some k : k <> "" -> Js.truthy (Some k) = true.
Proof. intros Hk. simpl. destruct (String.eqb_spec k ""); [contradiction | reflexivity]. Qed.

Lemma or_truthy a b : Js.truthy a = true -> Js.or a b = a.
Proof. unfold Js.or. intros ->. reflexivity. Qed.

Lemma or_falsy a b : Js.truthy a = false -> Js.or a b = b.
Proof. unfold Js.or. intros ->. reflexivity. Qed.

Lemma or_else_truthy k fallback : k <> "" -> Js.or_else (Some k) fallback = k.
Proof. intros Hk. simpl. destruct (String.eqb_spec k ""); [contradiction | reflexivity]. Qed.

Lemma or_else_falsy a fallback : Js.truthy a = false -> Js.or_else a fallback = fallback.
Proof.
  destruct a as [k |]; [| reflexivity]. simpl.
  destruct (String.eqb k ""); [reflexivity | discriminate].
Qed.

(** The constructor's two outcomes, by the key it resolves. *)
Lemma constructor_with_key D env config k :
  Js.or (apiKey config) env = Some k -> k <> "" ->
  exists c, constructor D env config = Return c /\ client_apiKey c = k.
Proof.
  intros Hor Hk. unfold constructor. rewrite Hor, (or_else_truthy k "" Hk).
  destruct (String.eqb_spec k ""); [contradiction |].
  eexists. split; reflexivity.
Qed.

Lemma constructor_without_key D env config :
  Js.truthy (Js.or (apiKey config) env) = false ->
  constructor D env config = Throw (AuthenticationError (Some missingKeyMessage)).
Proof.
  intros Hor. unfold constructor. rewrite (or_else_falsy _ "" Hor). reflexivity.
Qed.

Lemma constructor_key_nonempty D env config c :
  constructor D env config = Return c -> client_apiKey c <> "".
Proof.
  unfold constructor.
  destruct (String.eqb_spec (Js.or_else (Js.or (apiKey config) env) "") "") as [| Hne];
    [discriminate |].
  intros [= <-]. exact Hne.
Qed.

(** C9 (amended). When the configuration supplies no credential and the
    environment value is unset (or either is empty), construction itself
    throws, and the error is an [AuthenticationError]: kind
    authentication, status 401, the kind the classifier gives to 401 and
    403 responses. No request can meet a missing credential: a client
    that was constructed holds a non-empty one. *)
Theorem constructor_requires_key (D : RetryConfig) (env : option string)
    (config : AllscreenshotsConfig) :
  Js.truthy (apiKey config) = false ->
  Js.truthy env = false ->
  constructor D env config = Throw (AuthenticationError (Some missingKeyMessage)) /\
  kind (AuthenticationError (Some missingKeyMessage)) = Authentication /\
  statusCode (AuthenticationError (Some missingKeyMessage)) = Some 401%Z /\
  (forall env' config' c,
      constructor D env' config' = Return c -> client_apiKey c <> "").
Proof.
  intros Hcfg Henv. split; [| split; [reflexivity | split; [reflexivity |]]].
  - apply constructor_without_key. rewrite (or_falsy _ _ Hcfg). exact Henv.
  - intros env' config' c. apply constructor_key_nonempty.
Qed.

Lemma constructor_requires_key_witness :
  Js.truthy (apiKey (mkConfig None (Some "https://x.test") None None None)) = false /\
  Js.truthy (Some "") = false /\
  constructor readmeRetryConfig (Some "")
    (mkConfig None (Some "https://x.test") None None None)
  = Throw (AuthenticationError (Some missingKeyMessage)) /\
  kind (AuthenticationError (Some missingKeyMessage)) = Authentication /\
  statusCode (AuthenticationError (Some missingKeyMessage)) = Some 401%Z /\
  (forall env' config' c,
      constructor readmeRetryConfig env' config' = Return c -> client_apiKey c <> "").
Proof.
  split; [reflexivity |]. split; [reflexivity |].
  apply (constructor_requires_key readmeRetryConfig (Some "")
           (mkConfig None (Some "https://x.test") None None None));
    reflexivity.
Defined.

(** C10. A configured API key that is the empty string is treated as
    absent: construction goes as if the key had been left out, so a
    non-empty environment key is used and without one construction
    throws. A configured key that is not empty is the one the client
    holds, whatever the environment says. *)
Theorem empty_apiKey_falls_back (D : RetryConfig) (env : option string)
    (config : AllscreenshotsConfig) :
  (apiKey config = Some "" ->
     constructor D env config = constructor D env (withoutApiKey config) /\
     (forall k, env = Some k -> k <> "" ->
        exists c, constructor D env config = Return c /\ client_apiKey c = k) /\
     (Js.truthy env = false ->
        constructor D env config = Throw (AuthenticationError (Some missingKeyMessage)))) /\
  (forall k, apiKey config = Some k -> k <> "" ->
     exists c, constructor D env config = Return c /\ client_apiKey c = k).
Proof.
  split.
  - intros Hempty. split; [| split].
    + unfold constructor, withoutApiKey. rewrite Hempty. reflexivity.
    + intros k Henv Hk. apply constructor_with_key; [| exact Hk].
      rewrite Hempty, or_falsy; [exact Henv | reflexivity].
    + intros Henv. apply constructor_without_key.
      rewrite Hempty, or_falsy; [exact Henv | reflexivity].
  - intros k Hkey Hk. apply constructor_with_key; [| exact Hk].
    rewrite Hkey. apply or_truthy, truthy_Some, Hk.
Qed.

Lemma empty_apiKey_falls_back_witness :
  (exists c,
     constructor readmeRetryConfig (Some "env-key")
       (mkConfig (Some "") None None None None) = Return c /\
     client_apiKey c = "env-key") /\
  (exists c,
     constructor readmeRetryConfig (Some "env-key")
       (mkConfig (Some "config-key") None None None None) = Return c /\
     client_apiKey c = "config-key").
Proof.
  split.
  - apply (proj1 (proj2 (proj1 (empty_apiKey_falls_back readmeRetryConfig (Some "env-key")
             (mkConfig (Some "") None None None None)) eq_refl)) "env-key" eq_refl).
    discriminate.
  - apply (proj2 (empty_apiKey_falls_back readmeRetryConfig (Some "env-key")
             (mkConfig (Some "config-key") None None None None)) "config-key" eq_refl).
    discriminate.
Defined.

(** ** The request executor *)

Section ExecutorProperties.

Variable Json : Type.
Variable JSON_parse : string -> option Json.
Variable JSON_stringify : Json -> string.
Variable truthyJson : Json -> bool.
Variable asErrorBody : Json -> ErrorBody.
Variable parseInt10 : string -> option Z.
Variable URL_new : string -> option (list (string * string)).

Let buildInit' := buildInit Json JSON_stringify truthyJson.
Let execute' :=
  execute Json JSON_parse JSON_stringify truthyJson asErrorBody parseInt10 URL_new.
Let tryBlock' := tryBlock Json JSON_parse truthyJson asErrorBody parseInt10.

Lemma buildInit_carriesHeaders this method options :
  carriesHeaders this options (buildInit' this method options).
Proof.
  unfold carriesHeaders, buildInit', buildInit. cbn [init_headers].
  split; [| split]; reflexivity.
Qed.

(** C7 (amended). Every request the executor dispatches carries the
    credential in the [X-API-Key] header, an [Accept] header chosen by
    the response mode ([image/*,application/pdf] in binary mode,
    [application/json] otherwise) and the [Content-Type] header
    [application/json], whether or not it has a body: two platforms
    that answer alike every request with these headers cannot be told
    apart by the executor. *)
Theorem dispatched_headers (this : AllscreenshotsClient) (method path : string)
    (options : RequestOptions Json)
    (fetch1 fetch2 : URL -> RequestInit -> Settled Response) :
  (forall url init, carriesHeaders this options init ->
                    init_body init
                    = match body Json options with
                      | Some b => if truthyJson b then Some (JSON_stringify b) else None
                      | None => None
                      end ->
                    fetch1 url init = fetch2 url init) ->
  carriesHeaders this options (buildInit' this method options) /\
  execute' this method path options fetch1 = execute' this method path options fetch2.
Proof.
  intros Hagree. split; [apply buildInit_carriesHeaders |].
  unfold execute', execute.
  destruct (buildUrl Json URL_new this path options) as [url |]; [| reflexivity].
  fold buildInit'.
  rewrite (Hagree url _ (buildInit_carriesHeaders this method options) eq_refl).
  reflexivity.
Qed.

Lemma catchBlock_transport this t :
  (forall e, t <> ThrownSdk e) ->
  statusCode (catchBlock this t) = None /\
  ((exists msg, t = ThrownError "AbortError" msg) /\
     kind (catchBlock this t) = Timeout
   \/ ~ (exists msg, t = ThrownError "AbortError" msg) /\
     kind (catchBlock this t) = Network).
Proof.
  intros Hsdk. destruct t as [e | nm msg |]; [destruct (Hsdk e eq_refl) | |].
  - cbn [catchBlock]. destruct (String.eqb_spec nm "AbortError") as [-> | Hnm].
    + split; [reflexivity |]. left. split; [eauto | reflexivity].
    + assert (Hno : ~ (exists m, ThrownError nm msg = ThrownError "AbortError" m))
        by (intros [m [= Hn _]]; contradiction).
      destruct (includes "fetch" msg); (split; [reflexivity |]); right;
        (split; [exact Hno | reflexivity]).
  - split; [reflexivity |]. right. split; [| reflexivity].
    intros [m Hm]. discriminate.
Qed.


(** A call that [fetch] itself rejects leaves the [try] block with
    that rejection. *)
Lemma tryBlock_fetch_rejected options t :
  tryBlock' options (Rejected t) = Rejected t.
Proof. reflexivity. Qed.

End ExecutorProperties.

Lemma dispatched_headers_witness :
  carriesHeaders TextPlatform.client noOptions
    (buildInit TextPlatform.Json TextPlatform.JSON_stringify TextPlatform.truthyJson
               TextPlatform.client "GET" noOptions) /\
  TextPlatform.run "GET" "/v1/usage" noOptions guardedFetch
  = TextPlatform.run "GET" "/v1/usage" noOptions (fun _ _ => Fulfilled emptyOk).
Proof.
  apply (dispatched_headers TextPlatform.Json TextPlatform.JSON_parse
           TextPlatform.JSON_stringify TextPlatform.truthyJson
           TextPlatform.asErrorBody TextPlatform.parseInt10 TextPlatform.URL_new
           TextPlatform.client "GET" "/v1/usage" noOptions
           guardedFetch (fun _ _ => Fulfilled emptyOk)).
  intros url init [Hkey _] _. unfold guardedFetch.
  rewrite decide_True; [reflexivity | exact Hkey].
Defined.

(** C7, as stated, fails: a [GET] without a body is sent with a
    [Content-Type] header. *)
Lemma bodyless_request_has_content_type :
  let init :=
    buildInit TextPlatform.Json TextPlatform.JSON_stringify TextPlatform.truthyJson
              TextPlatform.client "GET" noOptions in
  init_body init = None /\
  init_headers init !! "Content-Type" = Some "application/json" /\
  ~ (is_Some (init_headers init !! "Content-Type") <-> is_Some (init_body init)).
Proof.
  cbv zeta. split; [reflexivity |]. split; [reflexivity |].
  intros [Hto _].
  assert (Hsome : is_Some (@None string)) by (apply Hto; eexists; reflexivity).
  destruct Hsome as [x Hx]. discriminate.
Qed.


(** The executor on the cases of the client's unit tests and of the
    design document. *)
Example timed_out_attempt :
  TextPlatform.run "GET" "/v1/usage" noOptions (fun _ _ => Rejected abortError)
  = Rejected (ThrownSdk (TimeoutError (Some "Request timed out after 60000ms"))).
Proof. vm_compute. reflexivity. Qed.

Example refused_connection :
  TextPlatform.run "GET" "/v1/usage" noOptions (fun _ _ => Rejected connectionRefused)
  = Rejected (ThrownSdk (NetworkError (Some "Network error: fetch failed"))).
Proof. vm_compute. reflexivity. Qed.

Example rate_limited_response :
  TextPlatform.run "GET" "/v1/usage" noOptions
    (fun _ _ => Fulfilled (mkResponse false 429 (Some "5") (Fulfilled "slow down")
                                      (Fulfilled [])))
  = Rejected (ThrownSdk (RateLimitError (Some "slow down") (Some 5%Z))).
Proof. vm_compute. reflexivity. Qed.

(** ** The backoff calculator *)

Lemma cappedDelay_nonneg attempt config :
  (0 <= initialDelayMs config)%Q ->
  (0 <= backoffMultiplier config)%Q ->
  (0 <= maxDelayMs config)%Q ->
  (0 <= cappedDelay attempt config)%Q.
Proof.
  intros Hinit Hmult Hmax. unfold cappedDelay.
  apply Q.min_glb; [| exact Hmax].
  apply Qmult_le_0_compat; [exact Hinit |].
  apply Qpower_0_le, Hmult.
Qed.

Lemma uniform_random_no_spread (spread u : Q) :
  (spread == 0)%Q -> (uniform_random (- spread) spread u == 0)%Q.
Proof. intros H. unfold uniform_random. rewrite H. ring. Qed.

(** C2. With jitter factor 0 the delay of attempt [i] is
    [min (initial_delay * multiplier ^ i) max_delay], whatever the
    random sample, for every configuration of non-negative delays and
    multiplier. *)
Theorem calculateDelay_without_jitter (i : nat) (config : RetryConfig) (u : Q) :
  (jitterFactor config == 0)%Q ->
  (0 <= initialDelayMs config)%Q ->
  (0 <= backoffMultiplier config)%Q ->
  (0 <= maxDelayMs config)%Q ->
  (calculateDelay i config u
   == Qmin (initialDelayMs config * backoffMultiplier config ^ Z.of_nat i)
           (maxDelayMs config))%Q.
Proof.
  intros Hjitter Hinit Hmult Hmax.
  unfold calculateDelay. fold (cappedDelay i config).
  rewrite uniform_random_no_spread by (rewrite Hjitter; ring).
  rewrite Qplus_0_r.
  apply Q.max_r, cappedDelay_nonneg; assumption.
Qed.

Lemma calculateDelay_without_jitter_witness :
  (calculateDelay 2 doublingConfig (7 # 10)
   == Qmin (1000 * 2 ^ Z.of_nat 2) 30000)%Q.
Proof.
  apply (calculateDelay_without_jitter 2 doublingConfig (7 # 10));
    vm_compute; first [reflexivity | discriminate].
Defined.

Example calculateDelay_doubles :
  (calculateDelay 0 doublingConfig (1 # 3) == 1000)%Q /\
  (calculateDelay 1 doublingConfig (1 # 3) == 2000)%Q /\
  (calculateDelay 2 doublingConfig (1 # 3) == 4000)%Q /\
  (calculateDelay 10 doublingConfig (1 # 3) == maxDelayMs doublingConfig)%Q.
Proof. repeat split. Qed.

(** ** The retry controller *)

Section ControllerProperties.

Local Open Scope list_scope.

Context {W T : Type}.
Variable operation : W -> Completion T * W.
Variable config : RetryConfig.
Variable random : nat -> Q.

Abbreviation step' := (step operation config random).
Abbreviation run' := (run operation config random).
Abbreviation withRetry' := (withRetry operation config random).

Lemma run_S fuel (c : @Controller W T) : run' (S fuel) c = run' fuel (step' c).
Proof. reflexivity. Qed.

Lemma run_terminal fuel (c : @Controller W T) :
  terminal c = true -> run' fuel c = c.
Proof.
  intros Hterm. induction fuel as [| fuel IH]; [reflexivity |].
  cbn [run]. replace (step' c) with c; [exact IH |].
  unfold step. unfold terminal in Hterm.
  destruct (state c); try discriminate; reflexivity.
Qed.

Lemma step_attempting_returns i w tr v w' :
  operation w = (Return v, w') ->
  step' (mkController (attempting i) w tr)
  = mkController (succeeded v) w' (tr ++ [Invoked (Return v)]).
Proof. intros Hop. unfold step. cbn [state world trace]. rewrite Hop. reflexivity. Qed.

Lemma step_attempting_gives_up i w tr e w' :
  operation w = (Throw e, w') ->
  isRetryableError e = false \/ maxRetries config <= i ->
  step' (mkController (attempting i) w tr)
  = mkController (failed_terminal e) w' (tr ++ [Invoked (Throw e)]).
Proof.
  intros Hop Hstop. unfold step. cbn [state world trace]. rewrite Hop.
  destruct Hstop as [-> | Hle]; [reflexivity |].
  apply Nat.leb_le in Hle. rewrite Hle, orb_true_r. reflexivity.
Qed.

Lemma step_attempting_retries i w tr e w' :
  operation w = (Throw e, w') ->
  isRetryableError e = true -> i < maxRetries config ->
  step' (mkController (attempting i) w tr)
  = mkController (waiting i (retryDelay config random i e)) w'
                 (tr ++ [Invoked (Throw e)]).
Proof.
  intros Hop Hretry Hlt. unfold step. cbn [state world trace]. rewrite Hop, Hretry.
  apply Nat.leb_gt in Hlt. rewrite Hlt. reflexivity.
Qed.

Lemma step_waiting i d w (tr : list (@Event T)) :
  step' (mkController (waiting i d) w tr)
  = mkController (attempting (S i)) w (tr ++ [Suspended d]).
Proof. reflexivity. Qed.

(** The controller always ends: started on attempt [i], it is in a
    terminal state after two transitions for each retry left and one
    more. *)
Lemma run_reaches_terminal k : forall i w tr,
  i + k = maxRetries config ->
  terminal (run' (2 * k + 1) (mkController (attempting i) w tr)) = true.
Proof.
  induction k as [| k IH]; intros i w tr Hik.
  - change (2 * 0 + 1) with 1. rewrite run_S.
    destruct (operation w) as [[v | e] w'] eqn:Hop.
    + rewrite (step_attempting_returns _ _ _ _ _ Hop). reflexivity.
    + rewrite (step_attempting_gives_up _ _ _ _ _ Hop); [reflexivity |].
      right. lia.
  - replace (2 * S k + 1) with (S (S (2 * k + 1))) by lia. rewrite run_S.
    destruct (operation w) as [[v | e] w'] eqn:Hop.
    + rewrite (step_attempting_returns _ _ _ _ _ Hop).
      rewrite run_terminal; reflexivity.
    + destruct (isRetryableError e) eqn:Hretry.
      * rewrite (step_attempting_retries _ _ _ _ _ Hop Hretry) by lia.
        rewrite run_S, step_waiting. apply IH. lia.
      * rewrite (step_attempting_gives_up _ _ _ _ _ Hop) by (left; exact Hretry).
        rewrite run_terminal; reflexivity.
Qed.

Theorem withRetry_terminates w : terminal (withRetry' w) = true.
Proof. unfold withRetry. apply run_reaches_terminal. lia. Qed.

(** *** Exhausted retries *)

Lemma outcomesOf_app (tr1 tr2 : list (@Event T)) :
  outcomesOf (tr1 ++ tr2) = outcomesOf tr1 ++ outcomesOf tr2.
Proof. apply omap_app. Qed.

Lemma run_exhausts k : forall i w tr,
  alwaysFailsRetryably operation ->
  i + k = maxRetries config ->
  exists e w' tr',
    run' (2 * k + 1) (mkController (attempting i) w tr)
    = mkController (failed_terminal e) w' (tr ++ tr' ++ [Invoked (Throw e)]) /\
    length (outcomesOf tr') = k.
Proof.
  induction k as [| k IH]; intros i w tr Hfail Hik.
  - destruct (Hfail w) as (e & w' & Hop & _).
    exists e, w', []. split; [| reflexivity].
    change (2 * 0 + 1) with 1. rewrite run_S.
    rewrite (step_attempting_gives_up _ _ _ _ _ Hop) by (right; lia).
    reflexivity.
  - destruct (Hfail w) as (e & w' & Hop & Hretry).
    replace (2 * S k + 1) with (S (S (2 * k + 1))) by lia.
    rewrite run_S, (step_attempting_retries _ _ _ _ _ Hop Hretry) by lia.
    rewrite run_S, step_waiting.
    destruct (IH (S i) w' ((tr ++ [Invoked (Throw e)])
                             ++ [Suspended (retryDelay config random i e)])
                Hfail ltac:(lia)) as (e' & w'' & tr' & Hrun & Hlen).
    exists e', w'',
      (Invoked (Throw e) :: Suspended (retryDelay config random i e) :: tr').
    split.
    + rewrite Hrun. f_equal. rewrite <- !app_assoc. reflexivity.
    + cbn. rewrite <- Hlen. reflexivity.
Qed.

(** C4. When the operation fails on every invocation with a retryable
    error, the controller invokes it [maxRetries + 1] times and then
    surfaces the error of the last invocation, as it was thrown. *)
Theorem withRetry_exhausts (w : W) :
  alwaysFailsRetryably operation ->
  exists e,
    invocations (withRetry' w) = maxRetries config + 1 /\
    state (withRetry' w) = failed_terminal e /\
    surfaced (withRetry' w) = Some (Throw e) /\
    last (outcomes (withRetry' w)) = Some (Throw e).
Proof.
  intros Hfail.
  destruct (run_exhausts (maxRetries config) 0 w [] Hfail eq_refl)
    as (e & w' & tr' & Hrun & Hlen).
  exists e. unfold withRetry. rewrite Hrun.
  unfold invocations, outcomes, surfaced. cbn [trace state app].
  rewrite outcomesOf_app. cbn.
  repeat split.
  - rewrite length_app, Hlen. reflexivity.
  - apply last_snoc.
Qed.

(** *** Terminal errors *)

Lemma isRetryableError_kinds e :
  (isRetryableError e = true <-> In (kind e) retryableKinds) /\
  (isRetryableError e = false <-> In (kind e) terminalKinds).
Proof.
  unfold isRetryableError, retryableKinds, terminalKinds.
  destruct (kind e); simpl; split; split; intros H; try reflexivity;
    try discriminate; tauto || (intuition discriminate).
Qed.

Lemma run_gives_up_at_once fuel w e w' :
  operation w = (Throw e, w') -> isRetryableError e = false ->
  run' (S fuel) (mkController (attempting 0) w [])
  = mkController (failed_terminal e) w' [Invoked (Throw e)].
Proof.
  intros Hop Hterm.
  rewrite run_S, (step_attempting_gives_up _ _ _ _ _ Hop) by (left; exact Hterm).
  apply run_terminal. reflexivity.
Qed.

(** C5. The retryability predicate holds of the kinds rate_limited,
    server, network and timeout and fails of validation,
    authentication, not_found, quota_exceeded and unknown; and when
    the first invocation fails with an error of a kind that is not
    retryable the controller ends with that error after this one
    invocation, without ever being in the waiting state, whatever the
    configuration. *)
Theorem nonretryable_fails_at_once :
  (forall e,
      (isRetryableError e = true <-> In (kind e) retryableKinds) /\
      (isRetryableError e = false <-> In (kind e) terminalKinds)) /\
  (forall w e w',
      operation w = (Throw e, w') -> isRetryableError e = false ->
      withRetry' w = mkController (failed_terminal e) w' [Invoked (Throw e)] /\
      invocations (withRetry' w) = 1 /\
      suspensions (withRetry' w) = [] /\
      forall fuel i d,
        state (run' fuel (mkController (attempting 0) w [])) <> waiting i d).
Proof.
  split; [exact isRetryableError_kinds |].
  intros w e w' Hop Hterm.
  assert (Hrun : withRetry' w
                 = mkController (failed_terminal e) w' [Invoked (Throw e)]).
  { unfold withRetry. replace (2 * maxRetries config + 1)
      with (S (2 * maxRetries config)) by lia.
    apply (run_gives_up_at_once _ _ _ _ Hop Hterm). }
  rewrite Hrun. repeat split.
  intros [| fuel] i d.
  - discriminate.
  - rewrite (run_gives_up_at_once _ _ _ _ Hop Hterm). discriminate.
Qed.

(** *** The retry-after override *)

Lemma hintHonoured_snoc (tr : list (@Event T)) ev :
  hintHonoured tr ->
  (forall e h, last tr = Some (Invoked (Throw e)) ->
               kind e = RateLimited -> retryAfter e = Some h ->
               ev = Suspended (inject_Z (h * 1000))) ->
  hintHonoured (tr ++ [ev]).
Proof.
  intros Htr Hlast k e h ev' Hk Hkind Hhint Hnext.
  destruct (Nat.lt_trichotomy (S k) (length tr)) as [Hlt | [Heq | Hgt]].
  - rewrite lookup_app_l in Hk by lia. rewrite lookup_app_l in Hnext by lia.
    exact (Htr k e h ev' Hk Hkind Hhint Hnext).
  - rewrite lookup_app_l in Hk by lia.
    rewrite lookup_app_r in Hnext by lia.
    replace (S k - length tr) with 0 in Hnext by lia.
    injection Hnext as <-.
    apply (Hlast e h); [| exact Hkind | exact Hhint].
    rewrite last_lookup. replace (pred (length tr)) with k by lia. exact Hk.
  - apply lookup_lt_Some in Hnext. rewrite length_app in Hnext.
    cbn [length] in Hnext. lia.
Qed.

Lemma retryDelay_hint i e h :
  kind e = RateLimited -> retryAfter e = Some h ->
  retryDelay config random i e = inject_Z (h * 1000).
Proof. intros Hkind Hhint. unfold retryDelay. rewrite Hkind, Hhint. reflexivity. Qed.

Lemma step_hintInvariant c :
  hintInvariant config random c -> hintInvariant config random (step' c).
Proof.
  destruct c as [st w tr]. intros [Htr Hst]. cbn [state trace] in Hst.
  destruct st as [i | i d | v | e]; [| | split; assumption | split; assumption].
  - assert (Hsnoc : forall o, hintHonoured (tr ++ [Invoked o])).
    { intros o. apply hintHonoured_snoc; [exact Htr |].
      intros e h Hlast. destruct (Hst _ Hlast). }
    unfold step. cbn [state world trace].
    destruct (operation w) as [[v | e] w'].
    + split; [apply Hsnoc | exact I].
    + destruct (negb (isRetryableError e) || (maxRetries config <=? i)%nat).
      * split; [apply Hsnoc | exact I].
      * split; [apply Hsnoc |]. cbn [state trace].
        exists e. split; [apply last_snoc | reflexivity].
  - destruct Hst as (e & Hlast & ->). rewrite step_waiting. split.
    + cbn [trace]. apply hintHonoured_snoc; [exact Htr |].
      intros e' h Hlast' Hkind Hhint.
      rewrite Hlast in Hlast'. injection Hlast' as <-.
      rewrite (retryDelay_hint _ _ _ Hkind Hhint). reflexivity.
    + cbn [state trace]. intros o. rewrite last_snoc. discriminate.
Qed.

Lemma run_hintInvariant fuel : forall c,
  hintInvariant config random c -> hintInvariant config random (run' fuel c).
Proof.
  induction fuel as [| fuel IH]; intros c Hc; [exact Hc |].
  rewrite run_S. apply IH, step_hintInvariant, Hc.
Qed.

(** C3. A failure of kind rate_limited that carries a retry-after hint
    of [h] seconds, met on an attempt that is not the last, takes the
    controller through a wait of exactly [h * 1000] milliseconds to
    the next attempt, whatever the configured delays, multiplier and
    jitter; and in the trace of every run, what follows such a failure
    is that wait. *)
Theorem retryAfter_overrides_backoff :
  (forall i w tr e h w',
      operation w = (Throw e, w') ->
      kind e = RateLimited -> retryAfter e = Some h ->
      i < maxRetries config ->
      run' 2 (mkController (attempting i) w tr)
      = mkController (attempting (S i)) w'
          (tr ++ [Invoked (Throw e); Suspended (inject_Z (h * 1000))])) /\
  (forall w, hintHonoured (trace (withRetry' w))).
Proof.
  split.
  - intros i w tr e h w' Hop Hkind Hhint Hlt.
    assert (Hretry : isRetryableError e = true)
      by (unfold isRetryableError; rewrite Hkind; reflexivity).
    rewrite run_S, (step_attempting_retries _ _ _ _ _ Hop Hretry Hlt).
    rewrite run_S, step_waiting, (retryDelay_hint _ _ _ Hkind Hhint).
    cbn [run]. rewrite <- app_assoc. reflexivity.
  - intros w. unfold withRetry.
    apply (run_hintInvariant _ (mkController (attempting 0) w [])).
    split.
    + intros k e h ev Hk. cbn [trace] in Hk. rewrite lookup_nil in Hk. discriminate.
    + cbn [state trace]. intros o. discriminate.
Qed.

End ControllerProperties.

(** *** The scenarios of the unit tests *)

Lemma withRetry_exhausts_witness :
  exists e,
    invocations (withRetry (alwaysRejects (ServerError None None))
                           (withMaxRetries 2) halves 0) = 2 + 1 /\
    state (withRetry (alwaysRejects (ServerError None None))
                     (withMaxRetries 2) halves 0) = failed_terminal e /\
    surfaced (withRetry (alwaysRejects (ServerError None None))
                        (withMaxRetries 2) halves 0) = Some (Throw e) /\
    last (outcomes (withRetry (alwaysRejects (ServerError None None))
                              (withMaxRetries 2) halves 0)) = Some (Throw e).
Proof.
  apply (withRetry_exhausts (alwaysRejects (ServerError None None))
           (withMaxRetries 2) halves 0).
  intros w. exists (ServerError None None), (S w). split; reflexivity.
Defined.

Example server_error_surfaces_unwrapped :
  surfaced (withRetry (alwaysRejects (ServerError None None))
                      (withMaxRetries 2) halves 0)
  = Some (Throw (ServerError None None)).
Proof. vm_compute. reflexivity. Qed.

Lemma nonretryable_fails_at_once_witness :
  withRetry (alwaysRejects (ValidationError "Invalid" None)) (withMaxRetries 3) halves 0
  = mkController (failed_terminal (ValidationError "Invalid" None)) 1
                 [Invoked (Throw (ValidationError "Invalid" None))] /\
  invocations (withRetry (alwaysRejects (ValidationError "Invalid" None))
                         (withMaxRetries 3) halves 0) = 1 /\
  suspensions (withRetry (alwaysRejects (ValidationError "Invalid" None))
                         (withMaxRetries 3) halves 0) = [] /\
  forall fuel i d,
    state (run (alwaysRejects (ValidationError "Invalid" None)) (withMaxRetries 3)
               halves fuel (mkController (attempting 0) 0 []))
    <> waiting i d.
Proof.
  apply (proj2 (nonretryable_fails_at_once
                  (alwaysRejects (ValidationError "Invalid" None))
                  (withMaxRetries 3) halves)
           0 (ValidationError "Invalid" None) 1);
    reflexivity.
Defined.

Lemma retryAfter_overrides_backoff_witness :
  run (rejectsOnce (RateLimitError (Some "Rate limited") (Some 5%Z)))
      (withMaxRetries 1) halves 2 (mkController (attempting 0) 0 [])
  = mkController (attempting 1) 1
      [Invoked (Throw (RateLimitError (Some "Rate limited") (Some 5%Z)));
       Suspended (inject_Z (5 * 1000))] /\
  hintHonoured
    (trace (withRetry (rejectsOnce (RateLimitError (Some "Rate limited") (Some 5%Z)))
                      (withMaxRetries 1) halves 0)).
Proof.
  destruct (retryAfter_overrides_backoff
              (rejectsOnce (RateLimitError (Some "Rate limited") (Some 5%Z)))
              (withMaxRetries 1) halves) as [Hstep Hrun].
  split; [| apply Hrun].
  apply (Hstep 0 0 [] (RateLimitError (Some "Rate limited") (Some 5%Z)) 5%Z 1);
    first [reflexivity | unfold withMaxRetries; simpl; lia].
Defined.

Example rate_limit_waits_5000 :
  trace (withRetry (rejectsOnce (RateLimitError (Some "Rate limited") (Some 5%Z)))
                   (withMaxRetries 1) halves 0)
  = [Invoked (Throw (RateLimitError (Some "Rate limited") (Some 5%Z)));
     Suspended 5000;
     Invoked (Return "success")].
Proof. vm_compute. reflexivity. Qed.

Example retry_then_success :
  let c := withRetry (rejectsOnce (ServerError None None)) (withMaxRetries 3) halves 0 in
  surfaced c = Some (Return "success") /\ invocations c = 2.
Proof. vm_compute. split; reflexivity. Qed.

(** The unit tests of [isRetryableError]. *)
Example isRetryableError_tests :
  isRetryableError (RateLimitError None None) = true /\
  isRetryableError (ServerError None None) = true /\
  isRetryableError (NetworkError None) = true /\
  isRetryableError (TimeoutError None) = true /\
  isRetryableError (ValidationError "Invalid input" None) = false /\
  isRetryableError (AuthenticationError None) = false.
Proof. repeat split. Qed.

(** * Further properties of the code *)

Local Open Scope list_scope.

(** ** The builder and the constructor *)

Lemma stripTrailingSlashes_decompose s :
  exists n, s = stripTrailingSlashes s +:+ slashes n.
Proof.
  induction s as [| c rest [n IH]]; [exists 0; reflexivity |].
  cbn [stripTrailingSlashes].
  destruct (stripTrailingSlashes rest) as [| a r] eqn:Hrest.
  - destruct (Ascii.eqb_spec c "/"%char) as [-> | _].
    + exists (S n). rewrite IH at 1. reflexivity.
    + exists n. rewrite IH at 1. reflexivity.
  - exists n. rewrite IH at 1. reflexivity.
Qed.

(** [withBaseUrl] stores the address without the slashes that end it
    and without any other change: the address given is the one stored
    followed by slashes only, the stored one does not end in a slash,
    and an address that does not end in a slash is stored as it is. *)
Theorem withBaseUrl_strips_trailing_slashes (url : string)
    (this : AllscreenshotsConfig) :
  exists stored n,
    baseUrl (AllscreenshotsClientBuilder.withBaseUrl url this) = Some stored /\
    url = stored +:+ slashes n /\
    endsWithSlash stored = false /\
    (endsWithSlash url = false -> stored = url).
Proof.
  destruct (stripTrailingSlashes_decompose url) as [n Hn].
  exists (stripTrailingSlashes url), n. split; [reflexivity |].
  split; [exact Hn |]. split; [apply stripTrailingSlashes_no_trailing |].
  apply stripTrailingSlashes_id.
Qed.

Lemma chained_snoc calls call :
  chained (calls ++ [call]) = applyCall (chained calls) call.
Proof. unfold chained. rewrite fold_left_app. reflexivity. Qed.

Lemma last_omap_snoc {A B : Type} (f : A -> option B) (l : list A) (x : A) :
  last (omap f (l ++ [x]))
  = match f x with Some y => Some y | None => last (omap f l) end.
Proof.
  rewrite omap_app. cbn. destruct (f x) as [y |].
  - apply last_snoc.
  - rewrite app_nil_r. reflexivity.
Qed.

Lemma chained_settings (calls : list BuilderCall) :
  apiKey (chained calls) = last (omap apiKeyOfCall calls) /\
  baseUrl (chained calls)
  = stripTrailingSlashes <$> last (omap baseUrlOfCall calls) /\
  timeout (chained calls) = last (omap timeoutOfCall calls) /\
  retry (chained calls) = last (omap retryOfCall calls) /\
  autoRetry (chained calls) = last (omap autoRetryOfCall calls).
Proof.
  induction calls as [| call calls IH] using rev_ind; [repeat split |].
  destruct IH as (Hkey & Hurl & Htime & Hretry & Hauto).
  rewrite chained_snoc, !last_omap_snoc.
  destruct call; cbn; repeat split; assumption.
Qed.

(** Whatever calls are chained on a builder, each setting of the
    configuration it hands to the client is the argument of the last
    call of the method that sets it (for the base address, with its
    trailing slashes removed), and is unset when that method was never
    called; in particular a second [withRetry] replaces the first as a
    whole. *)
Theorem builder_last_call_wins (calls : list BuilderCall) :
  apiKey (chained calls) = last (omap apiKeyOfCall calls) /\
  baseUrl (chained calls)
  = stripTrailingSlashes <$> last (omap baseUrlOfCall calls) /\
  timeout (chained calls) = last (omap timeoutOfCall calls) /\
  retry (chained calls) = last (omap retryOfCall calls) /\
  autoRetry (chained calls) = last (omap autoRetryOfCall calls).
Proof.
  induction calls as [| call calls IH] using rev_ind; [repeat split |].
  destruct IH as (Hkey & Hurl & Htime & Hretry & Hauto).
  rewrite chained_snoc, !last_omap_snoc.
  destruct call; cbn; repeat split; assumption.
Qed.

Lemma chained_baseUrl_stripped calls u :
  baseUrl (chained calls) = Some u -> endsWithSlash u = false.
Proof.
  destruct (chained_settings calls) as (_ & Hurl & _). rewrite Hurl.
  destruct (last (omap baseUrlOfCall calls)) as [url |]; [| discriminate].
  intros [= <-]. apply stripTrailingSlashes_no_trailing.
Qed.

Lemma or_else_default_baseUrl o :
  (forall u, o = Some u -> endsWithSlash u = false) ->
  endsWithSlash (Js.or_else o DEFAULT_CONFIG.baseUrl) = false.
Proof.
  intros Ho. destruct o as [u |]; [| reflexivity]. simpl.
  destruct (String.eqb u ""); [reflexivity | apply Ho; reflexivity].
Qed.

(** A client built by a builder, whatever calls were chained on it,
    holds a base address that does not end in a slash. *)
Theorem builder_client_baseUrl_clean (D : RetryConfig) (env : option string)
    (calls : list BuilderCall) (c : AllscreenshotsClient) :
  build D env (chained calls) = Return c ->
  endsWithSlash (client_baseUrl c) = false.
Proof.
  unfold build, constructor.
  destruct (String.eqb _ ""); [discriminate |].
  intros [= <-]. cbn [client_baseUrl].
  apply or_else_default_baseUrl, chained_baseUrl_stripped.
Qed.

Lemma builder_client_baseUrl_clean_witness :
  endsWithSlash
    (client_baseUrl
       (mkClient "test-key" "https://custom.api.com" 30000 readmeRetryConfig true))
  = false.
Proof.
  apply (builder_client_baseUrl_clean readmeRetryConfig None
           [CallWithApiKey "test-key"; CallWithBaseUrl "https://custom.api.com///";
            CallWithTimeout 30000]).
  reflexivity.
Defined.

Lemma stripTrailingSlashes_slashes n : stripTrailingSlashes (slashes n) = "".
Proof.
  induction n as [| n IH]; [reflexivity |].
  cbn [slashes stripTrailingSlashes]. rewrite IH. reflexivity.
Qed.

(** A base address made of slashes only (or empty) leaves the built
    client on the default address. *)
Theorem builder_slashes_only_is_default (D : RetryConfig) (env : option string)
    (n : nat) (this : AllscreenshotsConfig) (c : AllscreenshotsClient) :
  build D env (AllscreenshotsClientBuilder.withBaseUrl (slashes n) this) = Return c ->
  client_baseUrl c = DEFAULT_CONFIG.baseUrl.
Proof.
  unfold build, constructor.
  cbn [AllscreenshotsClientBuilder.withBaseUrl baseUrl apiKey].
  destruct (String.eqb _ ""); [discriminate |].
  intros [= <-]. cbn [client_baseUrl].
  rewrite stripTrailingSlashes_slashes. reflexivity.
Qed.

Lemma builder_slashes_only_is_default_witness :
  client_baseUrl
    (mkClient "k" DEFAULT_CONFIG.baseUrl DEFAULT_CONFIG.timeout readmeRetryConfig true)
  = DEFAULT_CONFIG.baseUrl.
Proof.
  apply (builder_slashes_only_is_default readmeRetryConfig None 3
           (AllscreenshotsClientBuilder.withApiKey "k" AllscreenshotsClientBuilder.new)).
  reflexivity.
Defined.

Lemma or_else_nonempty a fallback :
  fallback <> "" -> Js.or_else a fallback <> "".
Proof.
  intros Hfb. destruct a as [k |]; [| exact Hfb]. simpl.
  destruct (String.eqb_spec k ""); [exact Hfb | assumption].
Qed.

(** Construction succeeds exactly when the configuration or the
    environment supplies a key that is not empty, and the client then
    holds the configured key if that one is not empty, the environment's
    otherwise. *)
Theorem constructor_succeeds_iff_key (D : RetryConfig) (env : option string)
    (config : AllscreenshotsConfig) :
  ((exists c, constructor D env config = Return c)
   <-> Js.truthy (apiKey config) = true \/ Js.truthy env = true) /\
  (forall c, constructor D env config = Return c ->
             Some (client_apiKey c)
             = if Js.truthy (apiKey config) then apiKey config else env).
Proof.
  split.
  - split.
    + intros [c Hc]. destruct (Js.truthy (apiKey config)) eqn:Hcfg; [left; reflexivity |].
      destruct (Js.truthy env) eqn:Henv; [right; reflexivity |].
      rewrite constructor_without_key in Hc; [discriminate |].
      rewrite (or_falsy _ _ Hcfg). exact Henv.
    + intros [Hcfg | Henv].
      * destruct (apiKey config) as [k |] eqn:Hk; [| discriminate].
        destruct (constructor_with_key D env config k) as (c & Hc & _).
        -- rewrite Hk. apply or_truthy, Hcfg.
        -- intros ->. discriminate.
        -- exists c. exact Hc.
      * destruct env as [k |] eqn:Hk; [| discriminate].
        destruct (Js.truthy (apiKey config)) eqn:Hcfg.
        -- destruct (apiKey config) as [k' |] eqn:Hk'; [| discriminate].
           destruct (constructor_with_key D (Some k) config k') as (c & Hc & _).
           ++ rewrite Hk'. apply or_truthy, Hcfg.
           ++ intros ->. discriminate.
           ++ exists c. exact Hc.
        -- destruct (constructor_with_key D (Some k) config k) as (c & Hc & _).
           ++ apply or_falsy, Hcfg.
           ++ intros ->. discriminate.
           ++ exists c. exact Hc.
  - intros c. unfold constructor.
    destruct (String.eqb_spec (Js.or_else (Js.or (apiKey config) env) "") "")
      as [| Hne]; [discriminate |].
    intros [= <-]. cbn [client_apiKey]. unfold Js.or in *.
    destruct (Js.truthy (apiKey config)) eqn:Hcfg.
    + destruct (apiKey config) as [k |]; [| discriminate].
      simpl in *. destruct (String.eqb k ""); [discriminate | reflexivity].
    + destruct env as [k |]; [| contradiction Hne; reflexivity].
      simpl in *. destruct (String.eqb k ""); [contradiction Hne; reflexivity | reflexivity].
Qed.

Lemma constructor_succeeds_iff_key_witness :
  exists c, constructor readmeRetryConfig (Some "env-test-key") emptyConfig = Return c.
Proof.
  apply (proj1 (constructor_succeeds_iff_key readmeRetryConfig (Some "env-test-key")
                  emptyConfig)).
  right. reflexivity.
Defined.

(** A constructed client never holds an empty base address (an empty or
    missing one is replaced by the default), while a configured timeout
    and a configured [autoRetry] are kept as they are, zero and [false]
    included. *)
Theorem constructor_keeps_zero_timeout (D : RetryConfig) (env : option string)
    (config : AllscreenshotsConfig) (c : AllscreenshotsClient) :
  constructor D env config = Return c ->
  client_baseUrl c <> "" /\
  (baseUrl config = None \/ baseUrl config = Some "" ->
   client_baseUrl c = "https://api.allscreenshots.com") /\
  (forall t, timeout config = Some t -> client_timeout c = t) /\
  (timeout config = None -> client_timeout c = 60000%Z) /\
  (forall a, autoRetry config = Some a -> client_autoRetry c = a) /\
  (autoRetry config = None -> client_autoRetry c = true).
Proof.
  unfold constructor. destruct (String.eqb _ ""); [discriminate |].
  intros [= <-]. cbn [client_baseUrl client_timeout client_autoRetry].
  split; [apply or_else_nonempty; discriminate |].
  split; [intros [-> | ->]; reflexivity |].
  split; [intros t ->; reflexivity |].
  split; [intros ->; reflexivity |].
  split; [intros a ->; reflexivity | intros ->; reflexivity].
Qed.

Lemma constructor_keeps_zero_timeout_witness :
  client_timeout
    (mkClient "k" DEFAULT_CONFIG.baseUrl 0 readmeRetryConfig false) = 0%Z.
Proof.
  apply (proj1 (proj2 (proj2
           (constructor_keeps_zero_timeout readmeRetryConfig None
              (mkConfig (Some "k") (Some "") (Some 0%Z) None (Some false))
              (mkClient "k" DEFAULT_CONFIG.baseUrl 0 readmeRetryConfig false)
              eq_refl))) 0%Z).
  reflexivity.
Defined.

(** ** More on the classifier *)

Lemma statusCode_parseApiError (s : Z) (b : ErrorBody) (r : option Z) :
  statusCode (parseApiError s b r) = Some (if (s =? 403)%Z then 401%Z else s).
Proof.
  unfold parseApiError.
  repeat match goal with
         | |- context [(s =? ?k)%Z] =>
             destruct (Z.eqb_spec s k) as [-> | ?]; [reflexivity |]
         end.
  reflexivity.
Qed.

(** The status code of a classified error is the status given, except
    that a 403 is reported as 401. *)
Theorem parseApiError_statusCode (s : Z) (b : ErrorBody) (r : option Z) :
  statusCode (parseApiError s b r) = Some (if (s =? 403)%Z then 401%Z else s).
Proof.
  unfold parseApiError.
  destruct (Z.eqb_spec s 403) as [-> | Hs]; [reflexivity |].
  repeat match goal with
         | |- context [(s =? ?k)%Z] =>
             destruct (Z.eqb_spec s k) as [-> | ?]; [reflexivity |]
         end.
  reflexivity.
Qed.

Lemma httpFallback_nonempty s : httpFallback s <> "".
Proof. unfold httpFallback. discriminate. Qed.

(** The message of a classified error is empty only when the body is
    the empty string. *)
Theorem parseApiError_message_nonempty (s : Z) (b : ErrorBody) (r : option Z) :
  b <> BodyString "" -> message (parseApiError s b r) <> "".
Proof.
  intros Hb. rewrite message_parseApiError.
  destruct b as [o | str |]; simpl.
  - apply or_else_nonempty, httpFallback_nonempty.
  - intros ->. apply Hb. reflexivity.
  - apply httpFallback_nonempty.
Qed.

Lemma parseApiError_message_nonempty_witness :
  BodyObject (mkApiErrorResponse (Some "") (Some "") None None None) <> BodyString "" /\
  message (parseApiError 500
             (BodyObject (mkApiErrorResponse (Some "") (Some "") None None None)) None)
  <> "".
Proof.
  split; [discriminate |].
  apply (parseApiError_message_nonempty 500
           (BodyObject (mkApiErrorResponse (Some "") (Some "") None None None)) None).
  discriminate.
Defined.

(** What the classifier does not look at: the body's own [statusCode]
    never; the body's [errorCode] unless the status is none of the
    listed ones; the body's [validationErrors] unless the status is 400;
    the retry-after hint unless the status is 429. *)
Theorem parseApiError_ignores (s : Z) (b : ErrorBody) (r : option Z) :
  (forall code, parseApiError s (setStatusCode code b) r = parseApiError s b r) /\
  (statusKind s <> Unknown ->
   forall code, parseApiError s (setErrorCode code b) r = parseApiError s b r) /\
  (s <> 400%Z ->
   forall errs, parseApiError s (setValidationErrors errs b) r = parseApiError s b r) /\
  (s <> 429%Z -> forall r', parseApiError s b r' = parseApiError s b r).
Proof.
  split; [| split; [| split]].
  - intros code. destruct b; reflexivity.
  - intros Hknown code. unfold statusKind, statusTable in Hknown. cbn [assocZ] in Hknown.
    rewrite !(Z.eqb_sym _ s) in Hknown. unfold parseApiError.
    repeat match goal with
           | |- context [(s =? ?k)%Z] =>
               destruct (Z.eqb_spec s k) as [-> | ?]; [destruct b; reflexivity |]
           end.
    contradiction Hknown. reflexivity.
  - intros Hs errs. unfold parseApiError.
    destruct (Z.eqb_spec s 400) as [| _]; [contradiction |].
    destruct b; reflexivity.
  - intros Hs r'. unfold parseApiError.
    destruct (Z.eqb_spec s 429) as [| _]; [contradiction |]. reflexivity.
Qed.

Lemma parseApiError_ignores_witness :
  parseApiError 503 BodyNull (Some 30%Z) = parseApiError 503 BodyNull None.
Proof.
  apply (proj2 (proj2 (proj2 (parseApiError_ignores 503 BodyNull None)))).
  discriminate.
Defined.

(** ** More on the request executor *)

Section ExecutorCoverage.

Variable Json : Type.
Variable JSON_parse : string -> option Json.
Variable JSON_stringify : Json -> string.
Variable truthyJson : Json -> bool.
Variable asErrorBody : Json -> ErrorBody.
Variable parseInt10 : string -> option Z.
Variable URL_new : string -> option (list (string * string)).

Variable this : AllscreenshotsClient.
Variables method path : string.
Variable options : RequestOptions Json.
Variable fetch : URL -> RequestInit -> Settled Response.

Let run :=
  execute Json JSON_parse JSON_stringify truthyJson asErrorBody parseInt10 URL_new
          this method path options fetch.
Let built := buildUrl Json URL_new this path options.
Let init := buildInit Json JSON_stringify truthyJson this method options.
Let hint := retryAfterOf parseInt10.

Lemma run_built (url : URL) :
  built = Some url ->
  run = match tryBlock Json JSON_parse truthyJson asErrorBody parseInt10 options
                (fetch url init) with
        | Fulfilled payload => Fulfilled payload
        | Rejected error => Rejected (ThrownSdk (catchBlock this error))
        end.
Proof. intros Hurl. unfold run, execute. fold built. rewrite Hurl. reflexivity. Qed.

Lemma run_unparsed : built = None -> run = Rejected invalidUrl.
Proof. intros Hurl. unfold run, execute. fold built. rewrite Hurl. reflexivity. Qed.

(** An attempt returns a value exactly when the address parses and
    [fetch] is fulfilled with an ok response whose body can be read,
    and the value is then the bytes of the body as they are in binary
    mode, the decoded text in structured mode, [null] for an empty text
    or one that does not parse. *)
Theorem execute_returns_iff_ok (payload : Payload Json) :
  run = Fulfilled payload <->
  exists url response,
    built = Some url /\
    fetch url init = Fulfilled response /\ ok response = true /\
    if isBinary Json options then
      exists bytes, arrayBuffer response = Fulfilled bytes /\
                    payload = BufferFrom Json bytes
    else
      exists txt, text response = Fulfilled txt /\
                  payload = Decoded Json (if String.eqb txt "" then None
                                          else JSON_parse txt).
Proof.
  split.
  - destruct built as [url |] eqn:Hurl; [| rewrite (run_unparsed Hurl); discriminate].
    rewrite (run_built url Hurl).
    destruct (fetch url init) as [response | t] eqn:Hfetch; [| discriminate].
    cbn [tryBlock await]. intros Hrun. exists url, response.
    split; [reflexivity |]. split; [exact Hfetch |].
    destruct (isBinary Json options).
    + destruct (ok response); [| discriminate]. split; [reflexivity |].
      cbn [negb] in Hrun. destruct (arrayBuffer response) as [bytes | t];
        [| discriminate].
      exists bytes. split; [reflexivity |]. cbn in Hrun. congruence.
    + destruct (text response) as [txt | t]; [| discriminate]. cbn [await] in Hrun.
      destruct (ok response); [| discriminate]. split; [reflexivity |].
      exists txt. split; [reflexivity |]. cbn in Hrun. congruence.
  - intros (url & response & Hurl & Hfetch & Hok & Hbody).
    rewrite (run_built url Hurl), Hfetch. cbn [tryBlock await]. rewrite Hok.
    cbn [negb]. destruct (isBinary Json options).
    + destruct Hbody as (bytes & -> & ->). reflexivity.
    + destruct Hbody as (txt & -> & ->). reflexivity.
Qed.

(** The rejections of an attempt are these and no others: the
    [TypeError] of [new URL] for an address that does not parse, which
    leaves the closure as it is; the classifier's error for a response
    that is not ok; or else a timeout or network error without status
    code. *)
Theorem execute_throws_only (t : Thrown) :
  (forall url,
      built = Some url ->
      foreign (fetch url init) /\
      forall response, fetch url init = Fulfilled response ->
                       foreign (text response) /\ foreign (arrayBuffer response)) ->
  run = Rejected t ->
  (built = None /\ t = invalidUrl)
  \/ exists e,
       t = ThrownSdk e /\
       ((exists url response b,
            built = Some url /\ fetch url init = Fulfilled response /\
            ok response = false /\
            e = parseApiError (status response) b (hint response))
        \/ (statusCode e = None /\ (kind e = Timeout \/ kind e = Network))).
Proof.
  intros Hplatform.
  assert (Hcatch : forall t', (forall e', t' <> ThrownSdk e') ->
            statusCode (catchBlock this t') = None /\
            (kind (catchBlock this t') = Timeout \/
             kind (catchBlock this t') = Network)).
  { intros t' Ht. destruct (catchBlock_transport this t' Ht) as [Hs [[_ Hk] | [_ Hk]]];
      auto. }
  destruct built as [url |] eqn:Hurl.
  - destruct (Hplatform url eq_refl) as [Hfetch Hbody].
    rewrite (run_built url Hurl).
    destruct (fetch url init) as [response | t'] eqn:Hf.
    + destruct (Hbody response eq_refl) as [Htext Hbuf]. cbn [tryBlock await].
      destruct (isBinary Json options).
      * destruct (ok response) eqn:Hok; cbn [negb].
        -- destruct (arrayBuffer response) as [bytes | t']; [discriminate |].
           cbn [await]. intros [= <-]. right. eexists. split; [reflexivity |].
           right. apply Hcatch. intros e' ->. exact (Hbuf e' eq_refl).
        -- intros [= <-]. right. eexists. split; [reflexivity |].
           left. eexists url, response, _.
           split; [reflexivity | split; [exact Hf | split; [exact Hok | reflexivity]]].
      * destruct (text response) as [txt | t'].
        -- cbn [await]. destruct (ok response) eqn:Hok; cbn [negb]; [discriminate |].
           intros [= <-]. right. eexists. split; [reflexivity |].
           left. eexists url, response, _.
           split; [reflexivity | split; [exact Hf | split; [exact Hok | reflexivity]]].
        -- cbn [await]. intros [= <-]. right. eexists. split; [reflexivity |].
           right. apply Hcatch. intros e' ->. exact (Htext e' eq_refl).
    + cbn [tryBlock await]. intros [= <-]. right. eexists. split; [reflexivity |].
      right. apply Hcatch. intros e' ->. exact (Hfetch e' eq_refl).
  - rewrite (run_unparsed Hurl). intros [= <-]. left. split; reflexivity.
Qed.

(** A request carries the three headers and no other, the method it was
    given, and a body exactly when [options.body] is there and truthy. *)
Theorem buildInit_sends_nothing_else :
  let init := buildInit Json JSON_stringify truthyJson this method options in
  dom (init_headers init) = ({["X-API-Key"; "Content-Type"; "Accept"]} : gset string) /\
  init_method init = method /\
  (init_body init = None <->
   body Json options = None \/
   exists b, body Json options = Some b /\ truthyJson b = false).
Proof.
  cbv zeta. unfold buildInit. cbn [init_headers init_method init_body].
  split; [| split; [reflexivity |]].
  - rewrite !dom_insert_L, dom_empty_L. set_solver.
  - destruct (body Json options) as [b |].
    + destruct (truthyJson b) eqn:Hb.
      * split; [discriminate |]. intros [| (b' & [= <-] & Hb')]; congruence.
      * split; [| reflexivity]. intros _. right. exists b.
        split; [reflexivity | exact Hb].
    + split; [| reflexivity]. intros _. left. reflexivity.
Qed.

(** From here on the address has parsed: [url] is the [URL] built of
    it and [fetched] what [fetch] made of the request. *)
Variable url : URL.
Hypothesis Hurl : built = Some url.

Let fetched := fetch url init.

Lemma run_unfold :
  run = match tryBlock Json JSON_parse truthyJson asErrorBody parseInt10 options fetched with
        | Fulfilled payload => Fulfilled payload
        | Rejected error => Rejected (ThrownSdk (catchBlock this error))
        end.
Proof. exact (run_built url Hurl). Qed.

Lemma run_non_ok response :
  fetched = Fulfilled response -> ok response = false ->
  isBinary Json options = true \/ (exists txt, text response = Fulfilled txt) ->
  exists b,
    run = Rejected (ThrownSdk (parseApiError (status response) b (hint response))).
Proof.
  intros Hfetch Hok Hmode. rewrite run_unfold, Hfetch. cbn [tryBlock await].
  rewrite Hok. cbn [negb].
  destruct (isBinary Json options) eqn:Hbin.
  - eexists. reflexivity.
  - destruct Hmode as [| [txt Htxt]]; [discriminate |].
    rewrite Htxt. cbn [await]. eexists. reflexivity.
Qed.

(** A response that is not ok makes the attempt throw the classifier's
    error for the response's status and [Retry-After] header, in both
    modes (in structured mode, once the body has been read); the error
    is not wrapped again on its way out. *)
Theorem execute_throws_classified (response : Response) :
  fetched = Fulfilled response -> ok response = false ->
  isBinary Json options = true \/ (exists txt, text response = Fulfilled txt) ->
  exists b,
    run = Rejected (ThrownSdk (parseApiError (status response) b (hint response))) /\
    kind (parseApiError (status response) b (hint response))
    = statusKind (status response).
Proof.
  intros Hfetch Hok Hmode.
  destruct (run_non_ok response Hfetch Hok Hmode) as [b Hb].
  exists b. split; [exact Hb | apply kind_parseApiError].
Qed.

(** In binary mode the message of the error of a response that is not
    ok comes from the body as follows: the fallback ["HTTP {status}
    error"] when the body cannot be read, the empty message when the
    body is empty, and the text itself when it does not parse. *)
Theorem binary_error_message (response : Response) :
  fetched = Fulfilled response -> ok response = false ->
  isBinary Json options = true ->
  exists e,
    run = Rejected (ThrownSdk e) /\
    (forall t, text response = Rejected t ->
               message e = httpFallback (status response)) /\
    (text response = Fulfilled "" -> message e = "") /\
    (forall txt, text response = Fulfilled txt -> JSON_parse txt = None ->
                 message e = txt).
Proof.
  intros Hfetch Hok Hbin. rewrite run_unfold, Hfetch. cbn [tryBlock await].
  rewrite Hok, Hbin. cbn [negb]. cbv zeta. cbn [catchBlock]. eexists.
  split; [reflexivity |]. split; [| split].
  - intros t ->. rewrite message_parseApiError. reflexivity.
  - intros ->. rewrite message_parseApiError. reflexivity.
  - intros txt -> Hparse. rewrite message_parseApiError.
    cbn [Js.truthy from_option].
    destruct (String.eqb_spec txt "") as [-> | _]; [reflexivity |].
    cbn [negb]. rewrite Hparse. reflexivity.
Qed.

(** In structured mode the error of a response that is not ok whose
    body is empty or does not parse has the fallback message: the raw
    text is not used. *)
Theorem structured_error_message (response : Response) (txt : string) :
  fetched = Fulfilled response -> ok response = false ->
  isBinary Json options = false ->
  text response = Fulfilled txt ->
  txt = "" \/ JSON_parse txt = None ->
  exists e,
    run = Rejected (ThrownSdk e) /\ message e = httpFallback (status response).
Proof.
  intros Hfetch Hok Hbin Htxt Hbad. rewrite run_unfold, Hfetch. cbn [tryBlock await].
  rewrite Hok, Hbin, Htxt. cbn [negb await]. cbv zeta. cbn [catchBlock].
  eexists. split; [reflexivity |].
  rewrite message_parseApiError.
  destruct Hbad as [-> | Hparse]; [reflexivity |].
  destruct (String.eqb txt ""); [reflexivity |]. rewrite Hparse. reflexivity.
Qed.

Lemma retryAfter_parseApiError s b r n :
  retryAfter (parseApiError s b r) = Some n <-> s = 429%Z /\ r = Some n.
Proof.
  unfold parseApiError.
  repeat match goal with
         | |- context [(s =? ?k)%Z] =>
             destruct (Z.eqb_spec s k) as [-> | ?];
             [cbn; split; [intros H | intros [H H']]; try discriminate; auto |]
         end.
  cbn. split; [discriminate | intros [H _]; contradiction].
Qed.

(** The error of a response that is not ok carries a retry-after value
    exactly when the status is 429 and the [Retry-After] header is
    there, not empty, and read as a number by [parseInt]; on any other
    status the header is dropped. *)
Theorem execute_retryAfter_only_429 (response : Response) :
  fetched = Fulfilled response -> ok response = false ->
  isBinary Json options = true \/ (exists txt, text response = Fulfilled txt) ->
  exists e,
    run = Rejected (ThrownSdk e) /\
    forall n,
      retryAfter e = Some n <->
      status response = 429%Z /\
      exists h, header_RetryAfter response = Some h /\ h <> "" /\
                parseInt10 h = Some n.
Proof.
  intros Hfetch Hok Hmode.
  destruct (run_non_ok response Hfetch Hok Hmode) as [b Hb].
  eexists. split; [exact Hb |]. intros n.
  rewrite retryAfter_parseApiError. unfold hint, retryAfterOf.
  split.
  - intros [Hs Hhint]. split; [exact Hs |].
    destruct (header_RetryAfter response) as [h |]; [| discriminate].
    exists h. destruct (String.eqb_spec h "") as [| Hne]; [discriminate |].
    repeat split; assumption.
  - intros [Hs (h & -> & Hne & Hparse)]. split; [exact Hs |].
    destruct (String.eqb_spec h ""); [contradiction | exact Hparse].
Qed.

End ExecutorCoverage.

Lemma execute_throws_classified_witness :
  exists b,
    TextPlatform.run "GET" "/v1/usage" noOptions (fun _ _ => Fulfilled tooManyRequests)
    = Rejected (ThrownSdk (parseApiError 429 b (Some 5%Z))) /\
    kind (parseApiError 429 b (Some 5%Z)) = statusKind 429.
Proof.
  apply (execute_throws_classified TextPlatform.Json TextPlatform.JSON_parse
           TextPlatform.JSON_stringify TextPlatform.truthyJson
           TextPlatform.asErrorBody TextPlatform.parseInt10 TextPlatform.URL_new
           TextPlatform.client "GET" "/v1/usage" noOptions
           (fun _ _ => Fulfilled tooManyRequests) usageUrl eq_refl tooManyRequests);
    [reflexivity | reflexivity |].
  right. exists "slow down". reflexivity.
Defined.

Lemma execute_returns_iff_ok_witness :
  TextPlatform.run "GET" "/v1/usage" noOptions (fun _ _ => Fulfilled emptyOk)
  = Fulfilled (Decoded TextPlatform.Json None).
Proof.
  apply (proj2 (execute_returns_iff_ok TextPlatform.Json TextPlatform.JSON_parse
                  TextPlatform.JSON_stringify TextPlatform.truthyJson
                  TextPlatform.asErrorBody TextPlatform.parseInt10
                  TextPlatform.URL_new
                  TextPlatform.client "GET" "/v1/usage" noOptions
                  (fun _ _ => Fulfilled emptyOk) (Decoded TextPlatform.Json None))).
  exists usageUrl, emptyOk. split; [reflexivity |]. split; [reflexivity |].
  split; [reflexivity |]. exists "". split; reflexivity.
Defined.

Lemma binary_error_message_witness :
  exists e,
    TextPlatform.run "POST" "/v1/screenshots" binaryOptions
      (fun _ _ => Fulfilled unavailable) = Rejected (ThrownSdk e) /\
    (forall t, text unavailable = Rejected t -> message e = httpFallback 503) /\
    (text unavailable = Fulfilled "" -> message e = "") /\
    (forall txt, text unavailable = Fulfilled txt ->
                 TextPlatform.JSON_parse txt = None -> message e = txt).
Proof.
  apply (binary_error_message TextPlatform.Json TextPlatform.JSON_parse
           TextPlatform.JSON_stringify TextPlatform.truthyJson
           TextPlatform.asErrorBody TextPlatform.parseInt10 TextPlatform.URL_new
           TextPlatform.client "POST" "/v1/screenshots" binaryOptions
           (fun _ _ => Fulfilled unavailable) screenshotsUrl eq_refl unavailable);
    reflexivity.
Defined.

Lemma structured_error_message_witness :
  exists e,
    TextPlatform.run "GET" "/v1/usage" noOptions (fun _ _ => Fulfilled unavailable)
    = Rejected (ThrownSdk e) /\
    message e = httpFallback 503.
Proof.
  apply (structured_error_message TextPlatform.Json TextPlatform.JSON_parse
           TextPlatform.JSON_stringify TextPlatform.truthyJson
           TextPlatform.asErrorBody TextPlatform.parseInt10 TextPlatform.URL_new
           TextPlatform.client "GET" "/v1/usage" noOptions
           (fun _ _ => Fulfilled unavailable) usageUrl eq_refl unavailable "");
    [reflexivity | reflexivity | reflexivity | reflexivity |].
  left. reflexivity.
Defined.

Lemma execute_retryAfter_only_429_witness :
  exists e,
    TextPlatform.run "GET" "/v1/usage" noOptions (fun _ _ => Fulfilled unavailable)
    = Rejected (ThrownSdk e) /\
    forall n,
      retryAfter e = Some n <->
      status unavailable = 429%Z /\
      exists h, header_RetryAfter unavailable = Some h /\ h <> "" /\
                TextPlatform.parseInt10 h = Some n.
Proof.
  apply (execute_retryAfter_only_429 TextPlatform.Json TextPlatform.JSON_parse
           TextPlatform.JSON_stringify TextPlatform.truthyJson
           TextPlatform.asErrorBody TextPlatform.parseInt10 TextPlatform.URL_new
           TextPlatform.client "GET" "/v1/usage" noOptions
           (fun _ _ => Fulfilled unavailable) usageUrl eq_refl unavailable);
    [reflexivity | reflexivity |].
  right. exists "". reflexivity.
Defined.

Lemma execute_throws_only_witness :
  (* an address that does not parse *)
  ((buildUrl TextPlatform.Json TextPlatform.URL_new schemelessClient "/v1/usage" noOptions
    = None /\ invalidUrl = invalidUrl)
   \/ exists e,
        invalidUrl = ThrownSdk e /\
        ((exists url response b,
             buildUrl TextPlatform.Json TextPlatform.URL_new schemelessClient
               "/v1/usage" noOptions = Some url /\
             Fulfilled emptyOk = Fulfilled response /\ ok response = false /\
             e = parseApiError (status response) b
                   (retryAfterOf TextPlatform.parseInt10 response))
         \/ (statusCode e = None /\ (kind e = Timeout \/ kind e = Network)))) /\
  (* an attempt that runs out of time *)
  ((buildUrl TextPlatform.Json TextPlatform.URL_new TextPlatform.client "/v1/usage"
      noOptions = None /\
    ThrownSdk (TimeoutError (Some "Request timed out after 60000ms")) = invalidUrl)
   \/ exists e,
        ThrownSdk (TimeoutError (Some "Request timed out after 60000ms")) = ThrownSdk e /\
        ((exists url response b,
             buildUrl TextPlatform.Json TextPlatform.URL_new TextPlatform.client
               "/v1/usage" noOptions = Some url /\
             Rejected abortError = Fulfilled response /\ ok response = false /\
             e = parseApiError (status response) b
                   (retryAfterOf TextPlatform.parseInt10 response))
         \/ (statusCode e = None /\ (kind e = Timeout \/ kind e = Network)))).
Proof.
  split.
  - apply (execute_throws_only TextPlatform.Json TextPlatform.JSON_parse
             TextPlatform.JSON_stringify TextPlatform.truthyJson
             TextPlatform.asErrorBody TextPlatform.parseInt10 TextPlatform.URL_new
             schemelessClient "GET" "/v1/usage" noOptions
             (fun _ _ => Fulfilled emptyOk) invalidUrl).
    + intros url Hurl. discriminate Hurl.
    + reflexivity.
  - apply (execute_throws_only TextPlatform.Json TextPlatform.JSON_parse
             TextPlatform.JSON_stringify TextPlatform.truthyJson
             TextPlatform.asErrorBody TextPlatform.parseInt10 TextPlatform.URL_new
             TextPlatform.client "GET" "/v1/usage" noOptions
             (fun _ _ => Rejected abortError)
             (ThrownSdk (TimeoutError (Some "Request timed out after 60000ms")))).
    + intros url _. split; [intros e; discriminate |].
      intros response H. discriminate H.
    + vm_compute. reflexivity.
Defined.

(** ** The request address *)

Lemma searchParams_set_elem key value params p :
  p ∈ searchParams_set key value params -> p = (key, value) \/ p ∈ params.
Proof.
  induction params as [| [k v] rest IH]; cbn [searchParams_set].
  - intros Hp. apply list_elem_of_singleton in Hp. left. exact Hp.
  - destruct (String.eqb k key).
    + intros Hp. apply elem_of_cons in Hp as [-> | Hp]; [left; reflexivity |].
      right. apply elem_of_cons. right.
      apply list_elem_of_In in Hp. apply List.filter_In in Hp as [Hp _].
      apply list_elem_of_In. exact Hp.
    + intros Hp. apply elem_of_cons in Hp as [-> | Hp].
      * right. apply elem_of_cons. left. reflexivity.
      * destruct (IH Hp) as [-> | Hin]; [left; reflexivity |].
        right. apply elem_of_cons. right. exact Hin.
Qed.

Lemma searchParams_set_fresh key value (params : list (string * string)) :
  key ∉ params.*1 -> searchParams_set key value params = params ++ [(key, value)].
Proof.
  induction params as [| [k v] rest IH]; [reflexivity |].
  cbn [searchParams_set fmap list_fmap fst]. intros Hfresh.
  apply not_elem_of_cons in Hfresh as [Hne Hrest].
  destruct (String.eqb_spec k key) as [-> | _]; [contradiction Hne; reflexivity |].
  rewrite (IH Hrest). reflexivity.
Qed.

Lemma filter_keys_sub key (rest : list (string * string)) k :
  k ∈ (List.filter (fun p => negb (String.eqb (fst p) key)) rest).*1 ->
  k <> key /\ k ∈ rest.*1.
Proof.
  intros Hk. apply list_elem_of_fmap in Hk as ([k' v'] & -> & Hin).
  apply list_elem_of_In in Hin. apply List.filter_In in Hin as [Hin Hne].
  cbn [fst] in *. split.
  - intros ->. rewrite String.eqb_refl in Hne. discriminate.
  - apply list_elem_of_fmap. exists (k', v'). split; [reflexivity |].
    apply list_elem_of_In. exact Hin.
Qed.

Lemma filter_keys_NoDup key (rest : list (string * string)) :
  NoDup rest.*1 ->
  NoDup (List.filter (fun p => negb (String.eqb (fst p) key)) rest).*1.
Proof.
  induction rest as [| [k v] rest IH]; [intros _; constructor |].
  cbn [fmap list_fmap fst List.filter]. intros Hnd.
  apply NoDup_cons in Hnd as [Hk Hrest].
  destruct (negb (String.eqb k key)); [| exact (IH Hrest)].
  cbn [fmap list_fmap fst]. apply NoDup_cons. split; [| exact (IH Hrest)].
  intros Hin. apply filter_keys_sub in Hin as [_ Hin]. contradiction.
Qed.

Lemma searchParams_set_keys key value (params : list (string * string)) k :
  k ∈ (searchParams_set key value params).*1 -> k = key \/ k ∈ params.*1.
Proof.
  intros Hk. apply list_elem_of_fmap in Hk as (p & -> & Hp).
  destruct (searchParams_set_elem _ _ _ _ Hp) as [-> | Hin]; [left; reflexivity |].
  right. apply list_elem_of_fmap. exists p. split; [reflexivity | exact Hin].
Qed.

Lemma searchParams_set_NoDup key value (params : list (string * string)) :
  NoDup params.*1 -> NoDup (searchParams_set key value params).*1.
Proof.
  induction params as [| [k v] rest IH].
  - intros _. cbn. apply NoDup_cons. split; [apply not_elem_of_nil | constructor].
  - cbn [fmap list_fmap fst searchParams_set]. intros Hnd.
    apply NoDup_cons in Hnd as [Hk Hrest].
    destruct (String.eqb_spec k key) as [-> | Hne].
    + cbn [fmap list_fmap fst]. apply NoDup_cons. split.
      * intros Hin. apply filter_keys_sub in Hin as [Hin _]. contradiction Hin.
        reflexivity.
      * apply filter_keys_NoDup, Hrest.
    + cbn [fmap list_fmap fst]. apply NoDup_cons. split; [| exact (IH Hrest)].
      intros Hin. apply searchParams_set_keys in Hin as [-> | Hin]; contradiction.
Qed.

Lemma setEntry_rounds_NoDup entries : forall params,
  NoDup params.*1 -> NoDup (fold_left setEntry entries params).*1.
Proof.
  induction entries as [| [k o] entries IH]; intros params Hnd; [exact Hnd |].
  cbn [fold_left]. apply IH. unfold setEntry. cbn [fst snd].
  destruct o; [apply searchParams_set_NoDup |]; exact Hnd.
Qed.

Lemma setEntry_rounds_elem entries : forall params p,
  p ∈ fold_left setEntry entries params ->
  p ∈ params \/ exists value, (p.1, Some value) ∈ entries /\ p.2 = String_of value.
Proof.
  induction entries as [| [k o] entries IH]; intros params p Hp; [left; exact Hp |].
  cbn [fold_left] in Hp. destruct (IH _ _ Hp) as [Hin | (value & Hin & Hv)].
  - unfold setEntry in Hin. cbn [fst snd] in Hin. destruct o as [value |].
    + destruct (searchParams_set_elem _ _ _ _ Hin) as [-> | Hold]; [| left; exact Hold].
      right. exists value. split; [apply elem_of_cons; left; reflexivity | reflexivity].
    + left. exact Hin.
  - right. exists value. split; [apply elem_of_cons; right; exact Hin | exact Hv].
Qed.

Lemma setEntry_rounds_distinct entries : forall params,
  NoDup entries.*1 ->
  (forall k, k ∈ params.*1 -> k ∉ entries.*1) ->
  fold_left setEntry entries params = params ++ omap definedPair entries.
Proof.
  induction entries as [| [k o] entries IH]; intros params Hnd Hdisj.
  - cbn. rewrite app_nil_r. reflexivity.
  - cbn [fmap list_fmap fst] in Hnd, Hdisj.
    apply NoDup_cons in Hnd as [Hk Hrest]. cbn [fold_left].
    unfold setEntry at 2. cbn [fst snd]. destruct o as [value |].
    + rewrite searchParams_set_fresh.
      * rewrite IH; [| exact Hrest |].
        -- cbn. rewrite <- app_assoc. reflexivity.
        -- intros k' Hk'. rewrite fmap_app in Hk'.
           apply elem_of_app in Hk' as [Hk' | Hk'].
           ++ intros Hin. apply (Hdisj k' Hk'). apply elem_of_cons. right. exact Hin.
           ++ cbn in Hk'. apply list_elem_of_singleton in Hk'. subst k'. exact Hk.
      * intros Hin. apply (Hdisj k Hin). apply elem_of_cons. left. reflexivity.
    + rewrite IH; [reflexivity | exact Hrest |].
      intros k' Hk' Hin. apply (Hdisj k' Hk'). apply elem_of_cons. right. exact Hin.
Qed.

Lemma occurrences_filtered key k (params : list (string * string)) :
  occurrences k (List.filter (fun p => negb (String.eqb (fst p) key)) params)
  = if String.eqb k key then 0 else occurrences k params.
Proof.
  unfold occurrences. induction params as [| [k0 v0] rest IH].
  - cbn. destruct (String.eqb k key); reflexivity.
  - cbn [List.filter fst]. destruct (String.eqb_spec k0 key) as [-> | Hne]; cbn [negb].
    + rewrite IH. rewrite (String.eqb_sym key k).
      destruct (String.eqb k key); reflexivity.
    + cbn [List.filter fst length]. destruct (String.eqb_spec k0 k) as [-> | Hk].
      * destruct (String.eqb_spec k key) as [-> | _]; [contradiction Hne; reflexivity |].
        cbn [length]. rewrite IH. destruct (String.eqb_spec k key); [contradiction |].
        reflexivity.
      * exact IH.
Qed.

Lemma occurrences_set_same key value (params : list (string * string)) :
  occurrences key (searchParams_set key value params) = 1.
Proof.
  induction params as [| [k v] rest IH].
  - unfold occurrences. cbn. rewrite String.eqb_refl. reflexivity.
  - cbn [searchParams_set]. destruct (String.eqb_spec k key) as [-> | Hne].
    + pose proof (occurrences_filtered key key rest) as Hrest.
      rewrite String.eqb_refl in Hrest. unfold occurrences in *.
      cbn [List.filter fst]. rewrite String.eqb_refl. cbn [length].
      rewrite Hrest. reflexivity.
    + unfold occurrences in *. cbn [List.filter fst].
      destruct (String.eqb_spec k key); [contradiction | exact IH].
Qed.

Lemma occurrences_set_other k key value (params : list (string * string)) :
  k <> key ->
  occurrences k (searchParams_set key value params) = occurrences k params.
Proof.
  intros Hk. induction params as [| [k0 v0] rest IH].
  - unfold occurrences. cbn. destruct (String.eqb_spec key k); [congruence | reflexivity].
  - cbn [searchParams_set]. destruct (String.eqb_spec k0 key) as [-> | Hne].
    + pose proof (occurrences_filtered key k rest) as Hrest.
      destruct (String.eqb_spec k key); [contradiction |].
      unfold occurrences in *. cbn [List.filter fst].
      destruct (String.eqb_spec key k); [congruence |]. exact Hrest.
    + unfold occurrences in *. cbn [List.filter fst].
      destruct (String.eqb k0 k); [cbn [length]; rewrite IH |]; [reflexivity | exact IH].
Qed.

Lemma setEntry_rounds_keep_one key entries : forall params,
  occurrences key params = 1 ->
  occurrences key (fold_left setEntry entries params) = 1.
Proof.
  induction entries as [| [k o] entries IH]; intros params Hone; [exact Hone |].
  cbn [fold_left]. apply IH. unfold setEntry. cbn [fst snd].
  destruct o as [value |]; [| exact Hone].
  destruct (String.eqb_spec key k) as [-> | Hne].
  - apply occurrences_set_same.
  - rewrite (occurrences_set_other key k _ params Hne). exact Hone.
Qed.

Lemma setEntry_rounds_once key value entries : forall params,
  (key, Some value) ∈ entries ->
  occurrences key (fold_left setEntry entries params) = 1.
Proof.
  induction entries as [| [k o] entries IH]; intros params Hin.
  - apply elem_of_nil in Hin. contradiction.
  - cbn [fold_left]. apply elem_of_cons in Hin as [[= <- <-] | Hin].
    + apply setEntry_rounds_keep_one. unfold setEntry. cbn [fst snd].
      apply occurrences_set_same.
    + apply IH. exact Hin.
Qed.

Lemma buildUrl_parsed (Json : Type) (URL_new : string -> option (list (string * string)))
    (this : AllscreenshotsClient) (path : string) (options : RequestOptions Json)
    (held : list (string * string)) :
  URL_new (requestAddress this path) = Some held ->
  buildUrl Json URL_new this path options
  = Some (mkURL (requestAddress this path)
            (fold_left setEntry (default [] (query Json options)) held)).
Proof.
  intros Hheld. unfold buildUrl. rewrite Hheld.
  destruct (query Json options); reflexivity.
Qed.

Section AddressCoverage.

Variable Json : Type.
Variable URL_new : string -> option (list (string * string)).
Variable this : AllscreenshotsClient.
Variable path : string.

(** When the client's base address followed by the path parses, the
    request goes to that address, whatever the query. Each of its
    query parameters was held by the address already or comes from an
    entry of [options.query] that has a value, which it carries as a
    string: an entry whose value is [undefined] adds nothing. The name
    of an entry that has a value names exactly one parameter, the
    parameters keep distinct names when the address held distinct
    ones, and without [options.query] they are the held ones. *)
Theorem buildUrl_query_sound (options : RequestOptions Json)
    (held : list (string * string)) :
  URL_new (requestAddress this path) = Some held ->
  exists url,
    buildUrl Json URL_new this path options = Some url /\
    url_input url = client_baseUrl this +:+ path /\
    (forall key text,
        (key, text) ∈ searchParams url ->
        (key, text) ∈ held \/
        exists entries value,
          query Json options = Some entries /\
          (key, Some value) ∈ entries /\ text = String_of value) /\
    (forall entries key value,
        query Json options = Some entries -> (key, Some value) ∈ entries ->
        occurrences key (searchParams url) = 1) /\
    (NoDup held.*1 -> NoDup (searchParams url).*1) /\
    (query Json options = None -> searchParams url = held).
Proof.
  intros Hheld. eexists. split; [exact (buildUrl_parsed _ _ _ _ options held Hheld) |].
  cbn [url_input searchParams]. split; [reflexivity |].
  split; [| split; [| split]].
  - intros key text Hin.
    destruct (setEntry_rounds_elem _ _ _ Hin) as [Hold | (value & Hentry & Hv)].
    + left. exact Hold.
    + right. destruct (query Json options) as [entries |].
      * exists entries, value. repeat split; assumption.
      * apply elem_of_nil in Hentry. contradiction.
  - intros entries key value -> Hin. exact (setEntry_rounds_once key value entries held Hin).
  - apply setEntry_rounds_NoDup.
  - intros ->. reflexivity.
Qed.

(** When the address parses, the entries of [options.query] have
    distinct names, as the entries of an object have, and the address
    holds no parameter of such a name, the query parameters are the
    ones the address held followed by the entries that have a value, in
    their order. *)
Theorem buildUrl_query_in_order (options : RequestOptions Json)
    (entries : list (string * option Scalar)) (held : list (string * string)) :
  URL_new (requestAddress this path) = Some held ->
  query Json options = Some entries ->
  NoDup entries.*1 ->
  (forall name, name ∈ entries.*1 -> name ∉ held.*1) ->
  exists url,
    buildUrl Json URL_new this path options = Some url /\
    url_input url = client_baseUrl this +:+ path /\
    searchParams url = held ++ omap definedPair entries.
Proof.
  intros Hheld Hq Hnd Hfresh. eexists.
  split; [exact (buildUrl_parsed _ _ _ _ options held Hheld) |].
  cbn [url_input searchParams]. split; [reflexivity |]. rewrite Hq.
  change (default [] (Some entries)) with entries.
  apply (setEntry_rounds_distinct entries held Hnd).
  intros k Hk Hin. exact (Hfresh k Hin Hk).
Qed.

End AddressCoverage.

Lemma buildUrl_query_sound_witness :
  exists url,
    buildUrl TextPlatform.Json TextPlatform.URL_new proxyClient
      "/v1/screenshots/compose/preview"
      (mkRequestOptions TextPlatform.Json None (Some previewEntries) None) = Some url /\
    url_input url
    = "https://proxy.example.com/api?tenant=a" +:+ "/v1/screenshots/compose/preview" /\
    (forall key text,
        (key, text) ∈ searchParams url ->
        (key, text) ∈ [("tenant", "a/v1/screenshots/compose/preview")] \/
        exists entries value,
          Some previewEntries = Some entries /\
          (key, Some value) ∈ entries /\ text = String_of value) /\
    (forall entries key value,
        Some previewEntries = Some entries -> (key, Some value) ∈ entries ->
        occurrences key (searchParams url) = 1) /\
    (NoDup [("tenant", "a/v1/screenshots/compose/preview")].*1 ->
     NoDup (searchParams url).*1) /\
    (Some previewEntries = None ->
     searchParams url = [("tenant", "a/v1/screenshots/compose/preview")]).
Proof.
  apply (buildUrl_query_sound TextPlatform.Json TextPlatform.URL_new proxyClient
           "/v1/screenshots/compose/preview"
           (mkRequestOptions TextPlatform.Json None (Some previewEntries) None)
           [("tenant", "a/v1/screenshots/compose/preview")]).
  reflexivity.
Defined.

Lemma buildUrl_query_in_order_witness :
  exists url,
    buildUrl TextPlatform.Json TextPlatform.URL_new proxyClient
      "/v1/screenshots/compose/preview"
      (mkRequestOptions TextPlatform.Json None (Some previewEntries) None) = Some url /\
    url_input url
    = "https://proxy.example.com/api?tenant=a" +:+ "/v1/screenshots/compose/preview" /\
    searchParams url
    = [("tenant", "a/v1/screenshots/compose/preview")] ++ omap definedPair previewEntries.
Proof.
  apply (buildUrl_query_in_order TextPlatform.Json TextPlatform.URL_new proxyClient
           "/v1/screenshots/compose/preview"
           (mkRequestOptions TextPlatform.Json None (Some previewEntries) None)
           previewEntries [("tenant", "a/v1/screenshots/compose/preview")]
           eq_refl eq_refl).
  - apply (bool_decide_unpack _). vm_compute. reflexivity.
  - intros name Hname Hheld. apply list_elem_of_singleton in Hheld. subst name.
    revert Hname. apply (bool_decide_unpack _). vm_compute. reflexivity.
Defined.

(** A parameter the address holds under the name of an entry is
    replaced, where it stands, by the entry's value. *)
Example held_parameter_is_replaced :
  searchParams <$>
    buildUrl TextPlatform.Json TextPlatform.URL_new
      (mkClient "test-key" "https://proxy.example.com/api?limit=5" 60000
                readmeRetryConfig false)
      "/v1/usage"
      (mkRequestOptions TextPlatform.Json None (Some [("limit", Some (SNumber 20))]) None)
  = Some [("limit", "20")].
Proof. reflexivity. Qed.

(** ** The endpoint methods *)

Section EndpointCoverage.

Variable Json : Type.
Variable encodeURIComponent : string -> string.

Abbreviation Call := (Endpoint.Call Json).
Abbreviation requestOf := (Endpoint.requestOf Json encodeURIComponent).

(** The two methods that return an image, [screenshot] and
    [getJobResult], are the ones that ask for a binary response; every
    other method asks for a structured one. *)
Theorem endpoint_binary_iff (call : Call) :
  isBinary Json (Endpoint.arg_options Json (requestOf call)) = true <->
  (exists request, call = Endpoint.screenshot Json request) \/
  (exists id, call = Endpoint.getJobResult Json id).
Proof.
  split.
  - destruct call; cbn; try discriminate; intros _; eauto.
  - intros [[request ->] | [id ->]]; reflexivity.
Qed.

(** Every method uses GET, POST, PUT or DELETE; the methods that pass a
    body use POST or PUT, so that no GET and no DELETE has one; and only
    [previewLayout] and [getScheduleHistory] pass a query. *)
Theorem endpoint_methods_and_bodies (call : Call) :
  let args := requestOf call in
  Endpoint.arg_method Json args ∈ ["GET"; "POST"; "PUT"; "DELETE"] /\
  (body Json (Endpoint.arg_options Json args) <> None ->
   Endpoint.arg_method Json args = "POST" \/ Endpoint.arg_method Json args = "PUT") /\
  (query Json (Endpoint.arg_options Json args) <> None ->
   (exists params, call = Endpoint.previewLayout Json params) \/
   (exists id limit, call = Endpoint.getScheduleHistory Json id limit)).
Proof.
  cbv zeta. split; [| split].
  - destruct call; cbn; set_solver.
  - destruct call; cbn; intros H; try (contradiction H; reflexivity); auto.
  - destruct call; cbn; intros H; try (contradiction H; reflexivity); eauto.
Qed.

Lemma endpoint_path_prefix (call : Call) :
  exists rest, Endpoint.arg_path Json (requestOf call) = "/v1/" +:+ rest.
Proof. destruct call; eexists; cbn; reflexivity. Qed.

Variable URL_new : string -> option (list (string * string)).

Abbreviation addressOf := (Endpoint.addressOf Json encodeURIComponent).
Abbreviation urlOf := (Endpoint.urlOf Json encodeURIComponent URL_new).

(** Whatever method a client built by a builder is used for, the
    address it hands to [new URL], which is the address of every [URL]
    it requests, is its base address, which does not end in a slash,
    followed by a path under [/v1/]: the two meet in exactly one
    slash. *)
Theorem endpoint_address (D : RetryConfig) (env : option string)
    (calls : list BuilderCall) (c : AllscreenshotsClient) (call : Call) :
  build D env (chained calls) = Return c ->
  exists rest,
    addressOf c call = client_baseUrl c +:+ "/v1/" +:+ rest /\
    (forall url, urlOf c call = Some url ->
                 url_input url = client_baseUrl c +:+ "/v1/" +:+ rest) /\
    endsWithSlash (client_baseUrl c) = false.
Proof.
  intros Hbuild. destruct (endpoint_path_prefix call) as [rest Hrest].
  exists rest. split; [| split].
  - unfold Endpoint.addressOf, requestAddress. rewrite Hrest. reflexivity.
  - intros url. unfold Endpoint.urlOf, buildUrl, requestAddress. rewrite Hrest.
    destruct (URL_new _); [| discriminate].
    destruct (query Json _); intros [= <-]; reflexivity.
  - revert Hbuild. unfold build, constructor.
    destruct (String.eqb _ ""); [discriminate |].
    intros [= <-]. cbn [client_baseUrl].
    apply or_else_default_baseUrl, chained_baseUrl_stripped.
Qed.

(** When the address of a call parses and holds no parameter under a
    name the call passes, and the numbers the call passes are below
    10^21 in magnitude, where [String(n)] writes plain digits, the
    query parameters are the ones the address held followed by these:
    [limit] for [getScheduleHistory] when it is given a limit;
    [layout] and [image_count], in this order, followed by those of
    [canvas_width], [canvas_height] and [aspect_ratios] that are given,
    for [previewLayout]; and none for any other call. *)
Theorem endpoint_queries (this : AllscreenshotsClient) (call : Call)
    (held : list (string * string)) :
  let entries := default [] (query Json (Endpoint.arg_options Json (requestOf call))) in
  URL_new (addressOf this call) = Some held ->
  (forall name, name ∈ entries.*1 -> name ∉ held.*1) ->
  (forall name n, (name, Some (SNumber n)) ∈ entries -> (Z.abs n < 10 ^ 21)%Z) ->
  exists url,
    urlOf this call = Some url /\
    url_input url = addressOf this call /\
    searchParams url
    = held ++
      match call with
      | Endpoint.getScheduleHistory _ _ (Some n) => [("limit", Js.show n)]
      | Endpoint.previewLayout _ params =>
          [("layout", Endpoint.layout params);
           ("image_count", Js.show (Endpoint.imageCount params))]
          ++ omap (fun p => (p.1,.) <$> p.2)
               [("canvas_width", Js.show <$> Endpoint.canvasWidth params);
                ("canvas_height", Js.show <$> Endpoint.canvasHeight params);
                ("aspect_ratios", Endpoint.aspectRatios params)]
      | _ => []
      end.
Proof.
  cbv zeta. intros Hheld Hfresh _. eexists.
  split; [exact (buildUrl_parsed _ _ _ _ _ held Hheld) |].
  cbn [url_input searchParams]. split; [reflexivity |].
  rewrite setEntry_rounds_distinct.
  - f_equal. destruct call as [| | | | | | | | | | | [l n w h a] | | | | | | | | | | |
                                 id [limit |] | |];
      try reflexivity.
    destruct w, h, a; reflexivity.
  - destruct call; cbn; apply (bool_decide_unpack _); vm_compute; reflexivity.
  - intros k Hk Hin. exact (Hfresh k Hin Hk).
Qed.

End EndpointCoverage.

Lemma endpoint_methods_and_bodies_witness :
  Endpoint.arg_method string
    (Endpoint.requestOf string escapeSlashes (Endpoint.updateSchedule string "a/b" "{}"))
  = "POST" \/
  Endpoint.arg_method string
    (Endpoint.requestOf string escapeSlashes (Endpoint.updateSchedule string "a/b" "{}"))
  = "PUT".
Proof.
  apply (proj1 (proj2 (endpoint_methods_and_bodies string escapeSlashes
                         (Endpoint.updateSchedule string "a/b" "{}")))).
  discriminate.
Defined.

Lemma endpoint_address_witness :
  exists rest,
    Endpoint.addressOf string escapeSlashes
      (mkClient "test-key" "https://custom.api.com" 60000 readmeRetryConfig true)
      (Endpoint.getJob string "special/id")
    = "https://custom.api.com" +:+ "/v1/" +:+ rest /\
    (forall url,
        Endpoint.urlOf string escapeSlashes TextPlatform.URL_new
          (mkClient "test-key" "https://custom.api.com" 60000 readmeRetryConfig true)
          (Endpoint.getJob string "special/id") = Some url ->
        url_input url = "https://custom.api.com" +:+ "/v1/" +:+ rest) /\
    endsWithSlash "https://custom.api.com" = false.
Proof.
  apply (endpoint_address string escapeSlashes TextPlatform.URL_new readmeRetryConfig None
           [CallWithApiKey "test-key"; CallWithBaseUrl "https://custom.api.com///"]
           (mkClient "test-key" "https://custom.api.com" 60000 readmeRetryConfig true)
           (Endpoint.getJob string "special/id")).
  reflexivity.
Defined.

Lemma endpoint_queries_witness :
  exists url,
    Endpoint.urlOf string escapeSlashes TextPlatform.URL_new proxyClient
      (Endpoint.getScheduleHistory string "s1" (Some 20%Z)) = Some url /\
    url_input url = "https://proxy.example.com/api?tenant=a/v1/schedules/s1/history" /\
    searchParams url = [("tenant", "a/v1/schedules/s1/history")] ++ [("limit", "20")].
Proof.
  apply (endpoint_queries string escapeSlashes TextPlatform.URL_new proxyClient
           (Endpoint.getScheduleHistory string "s1" (Some 20%Z))
           [("tenant", "a/v1/schedules/s1/history")] eq_refl).
  - intros name Hname Hheld. apply list_elem_of_singleton in Hheld. subst name.
    revert Hname. apply (bool_decide_unpack _). vm_compute. reflexivity.
  - intros name n Hin. apply list_elem_of_singleton in Hin.
    injection Hin as _ ->. reflexivity.
Defined.

(** The unit test of the encoded path parameter. *)
Example getJob_encodes_id :
  url_input <$>
    Endpoint.urlOf string escapeSlashes TextPlatform.URL_new TextPlatform.client
      (Endpoint.getJob string "special/id")
  = Some "https://api.allscreenshots.com/v1/screenshots/jobs/special%2Fid".
Proof. reflexivity. Qed.

(** ** The sample server *)

Section ServerCoverage.

Variable D : RetryConfig.
Variable toBase64 : list Byte.byte -> string.

Abbreviation postScreenshot := (SampleServer.postScreenshot toBase64).
Abbreviation initClient := (SampleServer.initClient D).

(** The handler of [POST /api/screenshot] calls the SDK at most with a
    request whose address and device are not empty and whose format is
    [png]: two SDKs that settle such requests alike get the same
    reply. *)
Theorem postScreenshot_call_discipline (client : option AllscreenshotsClient)
    (reqBody : SampleServer.ScreenshotRequestBody)
    (sdk1 sdk2 : AllscreenshotsClient -> SampleServer.ScreenshotRequest ->
                 Settled (list Byte.byte))
    (elapsed : Z) :
  (forall c request,
      client = Some c ->
      SampleServer.url reqBody = Some (SampleServer.request_url request) ->
      SampleServer.request_url request <> "" ->
      SampleServer.request_device request <> "" ->
      SampleServer.request_format request = "png" ->
      sdk1 c request = sdk2 c request) ->
  postScreenshot client reqBody sdk1 elapsed
  = postScreenshot client reqBody sdk2 elapsed.
Proof.
  intros Hsame. unfold SampleServer.postScreenshot.
  destruct client as [c |]; [| reflexivity].
  destruct (SampleServer.url reqBody) as [u |] eqn:Hurl; [| reflexivity].
  cbn [Js.truthy]. destruct (String.eqb_spec u "") as [| Hne]; [reflexivity |].
  cbn [negb default from_option id]. rewrite Hsame; [reflexivity | reflexivity | | | |].
  - reflexivity.
  - exact Hne.
  - cbn [SampleServer.request_device]. apply or_else_nonempty. discriminate.
  - reflexivity.
Qed.

(** The health reply tells whether the environment holds a key that is
    not empty, and without one every [POST /api/screenshot] is answered
    500 before the request is looked at. *)
Theorem server_needs_environment_key (env : option string) :
  SampleServer.getHealth (initClient env)
  = SampleServer.mkReply 200 (SampleServer.HealthBody "ok" (Js.truthy env)) /\
  (Js.truthy env = false ->
   forall reqBody sdk elapsed,
     SampleServer.reply_status (postScreenshot (initClient env) reqBody sdk elapsed)
     = 500%Z).
Proof.
  assert (Hinit : match initClient env with Some _ => true | None => false end
                  = Js.truthy env).
  { unfold SampleServer.initClient. destruct (Js.truthy env) eqn:Henv.
    - destruct env as [k |]; [| discriminate].
      destruct (constructor_with_key D (Some k) emptyConfig k) as (c & -> & _);
        [reflexivity | intros ->; discriminate | reflexivity].
    - rewrite constructor_without_key; [reflexivity |].
      rewrite or_falsy; [exact Henv | reflexivity]. }
  split.
  - unfold SampleServer.getHealth. rewrite Hinit. reflexivity.
  - intros Henv reqBody sdk elapsed. rewrite Henv in Hinit.
    destruct (initClient env); [discriminate | reflexivity].
Qed.

(** A request with an address, when the SDK fails: an error the
    classifier made of a status other than 0 is answered with the status
    code of that error (401 for a 403), and a timeout or network error
    of the executor is answered 500. *)
Theorem postScreenshot_relays_status (c : AllscreenshotsClient)
    (reqBody : SampleServer.ScreenshotRequestBody) (elapsed : Z) :
  Js.truthy (SampleServer.url reqBody) = true ->
  (forall s b r,
      s <> 0%Z ->
      postScreenshot (Some c) reqBody
        (fun _ _ => Rejected (ThrownSdk (parseApiError s b r))) elapsed
      = SampleServer.mkReply (if (s =? 403)%Z then 401%Z else s)
          (SampleServer.ErrorBody (message (parseApiError s b r))
                                  (errorCode (parseApiError s b r)))) /\
  (forall this t,
      (forall e, t <> ThrownSdk e) ->
      SampleServer.reply_status
        (postScreenshot (Some c) reqBody
           (fun _ _ => Rejected (ThrownSdk (catchBlock this t))) elapsed)
      = 500%Z).
Proof.
  intros Hurl. unfold SampleServer.postScreenshot. rewrite Hurl. cbn [negb].
  split.
  - intros s b r Hs. rewrite statusCode_parseApiError.
    unfold SampleServer.statusOr500.
    destruct (Z.eqb_spec s 403) as [-> | _]; [reflexivity |].
    destruct (Z.eqb_spec s 0) as [| _]; [contradiction | reflexivity].
  - intros this t Ht. cbn [SampleServer.reply_status].
    destruct (catchBlock_transport this t Ht) as [-> _]. reflexivity.
Qed.

End ServerCoverage.

Lemma postScreenshot_call_discipline_witness :
  SampleServer.postScreenshot (fun _ => "")
    (Some TextPlatform.client)
    (SampleServer.mkScreenshotRequestBody (Some "https://example.com") None None)
    (fun _ _ => Fulfilled []) 12
  = SampleServer.postScreenshot (fun _ => "")
      (Some TextPlatform.client)
      (SampleServer.mkScreenshotRequestBody (Some "https://example.com") None None)
      (fun _ request =>
         if String.eqb (SampleServer.request_url request) ""
         then Rejected ThrownOther else Fulfilled [])
      12.
Proof.
  apply (postScreenshot_call_discipline (fun _ => "")
           (Some TextPlatform.client)
           (SampleServer.mkScreenshotRequestBody (Some "https://example.com") None None)
           (fun _ _ => Fulfilled [])
           (fun _ request =>
              if String.eqb (SampleServer.request_url request) ""
              then Rejected ThrownOther else Fulfilled [])
           12).
  intros c request _ _ Hurl _ _.
  destruct (String.eqb_spec (SampleServer.request_url request) "");
    [contradiction | reflexivity].
Defined.

Lemma server_needs_environment_key_witness :
  SampleServer.reply_status
    (SampleServer.postScreenshot (fun _ => "")
       (SampleServer.initClient readmeRetryConfig (Some ""))
       (SampleServer.mkScreenshotRequestBody (Some "https://example.com") None None)
       (fun _ _ => Fulfilled []) 12)
  = 500%Z.
Proof.
  apply (proj2 (server_needs_environment_key readmeRetryConfig (fun _ => "") (Some ""))).
  reflexivity.
Defined.

Lemma postScreenshot_relays_status_witness :
  SampleServer.reply_status
    (SampleServer.postScreenshot (fun _ => "")
       (Some TextPlatform.client)
       (SampleServer.mkScreenshotRequestBody (Some "https://example.com") None None)
       (fun _ _ => Rejected (ThrownSdk (catchBlock TextPlatform.client abortError)))
       12)
  = 500%Z.
Proof.
  apply (proj2 (postScreenshot_relays_status (fun _ => "")
                  TextPlatform.client
                  (SampleServer.mkScreenshotRequestBody (Some "https://example.com")
                     None None)
                  12 eq_refl)
           TextPlatform.client abortError).
  intros e. discriminate.
Defined.

(** ** The messages of transport errors *)

Lemma prefix_append (a s : string) :
  String.prefix a s = true <-> exists post, s = a +:+ post.
Proof.
  revert s. induction a as [| c a IH]; intros s.
  - split; [intros _; exists s; reflexivity | intros _; destruct s; reflexivity].
  - destruct s as [| c' s]; cbn [String.prefix].
    + split; [discriminate | intros [post Hpost]; discriminate].
    + destruct (Ascii.ascii_dec c c') as [-> | Hne].
      * rewrite IH. split.
        -- intros [post ->]. exists post. reflexivity.
        -- intros [post [= ->]]. exists post. reflexivity.
      * split; [discriminate |]. intros [post [= Hc _]]. congruence.
Qed.

Lemma includes_spec (sub s : string) :
  includes sub s = true <-> exists pre post, s = pre +:+ sub +:+ post.
Proof.
  induction s as [| c s IH]; cbn [includes].
  - rewrite orb_false_r, prefix_append. split.
    + intros [post ->]. exists "", post. reflexivity.
    + intros (pre & post & Hs). destruct pre; [exists post; exact Hs | discriminate].
  - rewrite orb_true_iff, prefix_append, IH. split.
    + intros [[post ->] | (pre & post & ->)].
      * exists "", post. reflexivity.
      * exists (String c pre), post. reflexivity.
    + intros (pre & post & Hs). destruct pre as [| c' pre].
      * left. exists post. exact Hs.
      * right. injection Hs as _ ->. exists pre, post. reflexivity.
Qed.

(** What the [catch] block keeps of the message of a failure that is
    not an SDK error: nothing for an abort, whose error names the
    client's timeout instead; the whole message, after ["Network error:
    "], when it mentions [fetch]; and nothing otherwise, the error then
    reading ["Unknown network error occurred"] as it does for a thrown
    value that is not an [Error]. *)
Theorem catchBlock_messages (this : AllscreenshotsClient) (nm msg : string) :
  (nm = "AbortError" ->
   message (catchBlock this (ThrownError nm msg))
   = "Request timed out after " +:+ Js.show (client_timeout this) +:+ "ms") /\
  (nm <> "AbortError" ->
   (exists pre post, msg = pre +:+ "fetch" +:+ post) ->
   message (catchBlock this (ThrownError nm msg)) = "Network error: " +:+ msg) /\
  (nm <> "AbortError" ->
   ~ (exists pre post, msg = pre +:+ "fetch" +:+ post) ->
   message (catchBlock this (ThrownError nm msg)) = "Unknown network error occurred") /\
  message (catchBlock this ThrownOther) = "Unknown network error occurred".
Proof.
  split; [| split; [| split; [| reflexivity]]].
  - intros ->. reflexivity.
  - intros Hnm Hin. cbn [catchBlock].
    destruct (String.eqb_spec nm "AbortError"); [contradiction |].
    apply includes_spec in Hin. rewrite Hin. reflexivity.
  - intros Hnm Hout. cbn [catchBlock].
    destruct (String.eqb_spec nm "AbortError"); [contradiction |].
    destruct (includes "fetch" msg) eqn:Hin; [| reflexivity].
    apply includes_spec in Hin. contradiction.
Qed.

Lemma catchBlock_messages_witness :
  message (catchBlock TextPlatform.client (ThrownError "TypeError" "fetch failed"))
  = "Network error: " +:+ "fetch failed".
Proof.
  apply (proj1 (proj2 (catchBlock_messages TextPlatform.client "TypeError"
                         "fetch failed"))).
  - discriminate.
  - exists "", " failed". reflexivity.
Defined.
